(** * Predico wallet client API: user and wallet routes

    A shallow embedding of [app/routes/user.py] and [app/routes/wallet.py].
    Route handlers are monadic programs over a world made of the local
    relational store (users and cached upstream tokens), the background task
    queue of the request, and the two external systems the handlers talk to:
    the upstream market server and the payment gateway SDK.  Python exceptions
    are values of type [exn]; a handler either returns a reply or raises, and
    the state reached before a raise is kept, as no handler rolls back. *)

From Stdlib Require Import ZArith String Ascii List Bool Lia DecimalString.
Import ListNotations.
Local Open Scope string_scope.
Local Open Scope Z_scope.
Local Set Warnings "-register-all".

(** ** Python values and exceptions *)

(** JSON bodies and Python literals.  [PObject] stands for any other Python
    value (a float, a tuple, an SDK schema object...), carried by its repr. *)
Inductive pyval : Type :=
| PNone
| PBool (b : bool)
| PInt (z : Z)
| PStr (s : string)
| PList (items : list pyval)
| PDict (items : list (pyval * pyval))
| PObject (repr : string).

(** The exception classes the routes raise, catch or let through.
    [MalformedLiteral] is the [SyntaxError] or [ValueError] with which
    [ast.literal_eval] rejects its argument; [Exception] is any other
    exception, known by its string form. *)
Inductive exn : Type :=
| HTTPException (status_code : Z) (detail : pyval)
| WalletException (message : string)
| ConnectionError (message : string)
| KeyError (key : string)
| TypeError (message : string)
| MalformedLiteral (source : string)
| Exception (message : string).

Inductive result (A : Type) : Type :=
| Ok (a : A)
| Raise (e : exn).
Arguments Ok {A} a.
Arguments Raise {A} e.

(** The parts of the Python runtime the routes lean on: [ast.literal_eval]
    ([None] when it raises) and [str] on values. *)
Class PyRuntime : Type := {
  literal_eval : string -> option pyval;
  py_str : pyval -> string
}.

Definition decimal (z : Z) : string := NilZero.string_of_int (Z.to_int z).

(** [str(e)].  Starlette's [HTTPException.__str__] is
    [f"{self.status_code}: {self.detail}"] (releases without it print the
    empty string, which is no literal either); [str(KeyError(k))] is the
    repr of the key; the other classes print their message. *)
Definition str {PY : PyRuntime} (e : exn) : string :=
  match e with
  | HTTPException status_code detail => decimal status_code ++ ": " ++ py_str detail
  | WalletException message => message
  | ConnectionError message => message
  | KeyError key => "'" ++ key ++ "'"
  | TypeError message => message
  | MalformedLiteral source => "malformed node or string: " ++ source
  | Exception message => message
  end.

Definition HTTP_200_OK : Z := 200.
Definition HTTP_201_CREATED : Z := 201.
Definition HTTP_400_BAD_REQUEST : Z := 400.
Definition HTTP_409_CONFLICT : Z := 409.

(** ** Data model *)

(** A row of the [users] table. *)
Record User : Type := mkUser {
  email : string;
  password_hash : string
}.

(** A row of the [tokens] table: a cached upstream token. *)
Record Token : Type := mkToken {
  user_email : string;
  token : pyval;
  issued_at : Z;
  expiry : Z
}.

(** The account object of the payment gateway. *)
Record AccountSchema : Type := mkAccount {
  identifier : string;
  address : string
}.

(** What [make_request] hands back: the upstream status and its JSON body. *)
Record UpstreamResponse : Type := mkUpstream {
  upstream_status : Z;
  json : pyval
}.

(** What a route hands to the framework. *)
Inductive reply : Type :=
| JSONResponse (content : pyval) (status_code : Z)
| Response (content : string) (status_code : Z)
| Returned (value : pyval).

Inductive task : Type :=
| cleanup_expired_tokens_task (user_email : string).

(** Calls that reached the payment gateway SDK, in order. *)
Inductive sdk_call : Type :=
| CreateAccount (identifier : string)
| GetAccountData (identifier : string)
| GetBalance (identifier : string)
| RequestFunds (identifier : string).

Inductive backend_class : Type :=
| EthereumSmartContract
| IOTAPaymentController
| OtherBackend.

(** ** The world and the handler monad *)

Record world {U S : Type} : Type := mkWorld {
  users : list User;
  tokens : list Token;
  background_tasks : list task;
  sdk_calls : list sdk_call;
  now : Z;
  upstream : U;
  sdk : S
}.
Arguments world : clear implicits.
Arguments mkWorld {U S}.

Section Monad.
Context {U S : Type}.

Definition M (A : Type) : Type := world U S -> result A * world U S.

Definition ret {A} (a : A) : M A := fun w => (Ok a, w).

Definition raise {A} (e : exn) : M A := fun w => (Raise e, w).

Definition bind {A B} (m : M A) (k : A -> M B) : M B :=
  fun w =>
    match m w with
    | (Ok a, w') => k a w'
    | (Raise e, w') => (Raise e, w')
    end.

(** [try: m except Exception as e: h e]; a narrower [except] clause is a
    handler that re-raises what it does not match. *)
Definition try_except {A} (m : M A) (h : exn -> M A) : M A :=
  fun w =>
    match m w with
    | (Ok a, w') => (Ok a, w')
    | (Raise e, w') => h e w'
    end.

(** The outcome of a [try] block, for handlers that leave the function or
    let it go on. *)
Definition attempt {A} (m : M A) : M (result A) :=
  fun w => let (r, w') := m w in (Ok r, w').

Definition get_now : M Z := fun w => (Ok (now w), w).

Definition get_users : M (list User) := fun w => (Ok (users w), w).

Definition set_users (us : list User) : M unit :=
  fun w => (Ok tt, mkWorld us (tokens w) (background_tasks w) (sdk_calls w)
                           (now w) (upstream w) (sdk w)).

Definition set_tokens (ts : list Token) : M unit :=
  fun w => (Ok tt, mkWorld (users w) ts (background_tasks w) (sdk_calls w)
                           (now w) (upstream w) (sdk w)).

Definition get_tokens : M (list Token) := fun w => (Ok (tokens w), w).

(** [background_tasks.add_task(...)]: queued, run after the response. *)
Definition add_task (t : task) : M unit :=
  fun w => (Ok tt, mkWorld (users w) (tokens w) (background_tasks w ++ [t])
                           (sdk_calls w) (now w) (upstream w) (sdk w)).

Definition log_call (c : sdk_call) : M unit :=
  fun w => (Ok tt, mkWorld (users w) (tokens w) (background_tasks w)
                           (sdk_calls w ++ [c]) (now w) (upstream w) (sdk w)).

Definition on_sdk {A} (f : S -> result A * S) : M A :=
  fun w => let (r, s') := f (sdk w) in
           (r, mkWorld (users w) (tokens w) (background_tasks w) (sdk_calls w)
                       (now w) (upstream w) s').

Definition on_upstream {A} (f : U -> result A * U) : M A :=
  fun w => let (r, u') := f (upstream w) in
           (r, mkWorld (users w) (tokens w) (background_tasks w) (sdk_calls w)
                       (now w) u' (sdk w)).
End Monad.

Declare Scope handler_scope.
Delimit Scope handler_scope with handler.
Notation "x <- m ;; k" := (bind m (fun x => k))
  (at level 61, m at next level, right associativity) : handler_scope.
Notation "m ;; k" := (bind m (fun _ => k))
  (at level 61, right associativity) : handler_scope.
Local Open Scope handler_scope.

(** ** External collaborators *)

(** [app.apis.RequestStrategy.RequestContext]: one call to the market server. *)
Class RequestContext (U : Type) : Type := {
  make_request : string -> string -> pyval -> U -> result UpstreamResponse * U
}.

(** The payment gateway SDK object returned by [get_payment_processor()]. *)
Class PaymentProcessor (S : Type) : Type := {
  backend : backend_class;
  sdk_create_account : string -> S -> result unit * S;
  sdk_get_account_data : string -> S -> result AccountSchema * S;
  sdk_get_balance : string -> S -> result pyval * S;
  sdk_request_funds : string -> S -> result string * S
}.

(** [pwd_context] of [app.dependencies] (passlib). *)
Class CryptContext : Type := {
  pwd_hash : string -> string;
  pwd_verify : string -> string -> bool
}.

(** The payload of a local token. *)
Record claims : Type := mkClaims {
  sub : string;
  exp : Z
}.

(** The signing primitive behind the local tokens and the settings of
    [app.dependencies]: [verify_signature] gives the payload back when, and
    only when, the signature checks. *)
Class TokenSettings : Type := {
  sign : claims -> string;
  verify_signature : string -> option claims;
  ACCESS_TOKEN_EXPIRE : Z;
  REFRESH_TOKEN_EXPIRE : Z;
  CACHED_TOKEN_EXPIRE : Z
}.

Definition isinstance {S : Type} {PP : PaymentProcessor S} (cls : backend_class) : bool :=
  match backend, cls with
  | EthereumSmartContract, EthereumSmartContract => true
  | IOTAPaymentController, IOTAPaymentController => true
  | OtherBackend, OtherBackend => true
  | _, _ => false
  end.

(** The transaction operations of the same SDK object. *)
Class PaymentLedger (S : Type) : Type := {
  sdk_validate_transactions : S -> result pyval * S;
  sdk_get_transaction_by_field : pyval -> S -> result pyval * S;
  sdk_get_transaction_history : string -> S -> result pyval * S;
  sdk_execute_transaction : string -> string -> pyval -> S -> result pyval * S
}.

(** [int(x)] of the Python runtime, which raises on what is no number. *)
Class Builtins : Type := {
  py_int : pyval -> result Z
}.

(** The global [payment_processor]; every call is recorded in [sdk_calls]
    before the SDK runs it. *)
Module payment_processor.
Section Calls.
Context {U S : Type} {PP : PaymentProcessor S}.

Definition create_account (identifier : string) : @M U S unit :=
  log_call (CreateAccount identifier) ;;
  on_sdk (sdk_create_account identifier).

Definition get_account_data (identifier : string) : @M U S AccountSchema :=
  log_call (GetAccountData identifier) ;;
  on_sdk (sdk_get_account_data identifier).

Definition get_balance (identifier : string) : @M U S pyval :=
  log_call (GetBalance identifier) ;;
  on_sdk (sdk_get_balance identifier).

Definition request_funds (identifier : string) : @M U S string :=
  log_call (RequestFunds identifier) ;;
  on_sdk (sdk_request_funds identifier).
End Calls.

(** The transaction operations run on the SDK state; the record of calls is
    kept for the account, balance and faucet operations only. *)
Section Ledger.
Context {U S : Type} {PL : PaymentLedger S}.

Definition validate_transactions : @M U S pyval :=
  on_sdk sdk_validate_transactions.

Definition get_transaction_by_field (filters : pyval) : @M U S pyval :=
  on_sdk (sdk_get_transaction_by_field filters).

Definition get_transaction_history (identifier : string) : @M U S pyval :=
  on_sdk (sdk_get_transaction_history identifier).

Definition execute_transaction (from_identifier to_identifier : string) (value : pyval)
    : @M U S pyval :=
  on_sdk (sdk_execute_transaction from_identifier to_identifier value).
End Ledger.
End payment_processor.

(** ** Helpers of the Python runtime *)

Section Runtime.
Context {U S : Type} {PY : PyRuntime}.

(** [ast.literal_eval(s)] as a statement. *)
Definition ast_literal_eval (s : string) : @M U S pyval :=
  match literal_eval s with
  | Some v => ret v
  | None => raise (MalformedLiteral s)
  end.

Fixpoint lookup_key (key : string) (items : list (pyval * pyval)) : option pyval :=
  match items with
  | [] => None
  | (PStr k, v) :: rest => if String.eqb k key then Some v else lookup_key key rest
  | _ :: rest => lookup_key key rest
  end.

(** [v[key]] for a string key. *)
Definition getitem (v : pyval) (key : string) : @M U S pyval :=
  match v with
  | PDict items =>
      match lookup_key key items with
      | Some x => ret x
      | None => raise (KeyError key)
      end
  | _ => raise (TypeError "object is not subscriptable")
  end.
End Runtime.

(** ** Local helpers of [app.dependencies] and [app.crud] *)

Section Dependencies.
Context {U S : Type} {CC : CryptContext} {TS : TokenSettings}.

(** [db.query(User).filter(User.email == email).first()] *)
Definition query_user_first (email' : string) (rows : list User) : option User :=
  find (fun u => String.eqb (email u) email') rows.

(** [db.add(new_user); db.commit()] *)
Definition db_add_user (new_user : User) : @M U S unit :=
  rows <- get_users ;;
  set_users (rows ++ [new_user]).

(** Modelled from the spec: [authenticate_user] of [app.dependencies] is not
    in the sources.  Local authentication is the local password check against
    the local hash of the user row with that email. *)
Definition authenticate_user (email' password : string) : @M U S (option User) :=
  rows <- get_users ;;
  match query_user_first email' rows with
  | Some user => if pwd_verify password (password_hash user) then ret (Some user)
                 else ret None
  | None => ret None
  end.

(** Modelled from the spec: [create_access_token] of [app.dependencies] is not
    in the sources.  Stateless signing of the subject with an expiry. *)
Definition create_access_token (subject : string) : @M U S string :=
  t <- get_now ;;
  ret (sign (mkClaims subject (t + ACCESS_TOKEN_EXPIRE))).

(** Modelled from the spec: [create_refresh_token] of [app.dependencies] is
    not in the sources.  Stateless signing of the subject with an expiry. *)
Definition create_refresh_token (subject : string) : @M U S string :=
  t <- get_now ;;
  ret (sign (mkClaims subject (t + REFRESH_TOKEN_EXPIRE))).

(** Modelled from the spec: [get_payload_from_refresh_token] of
    [app.dependencies] is not in the sources.  It resolves the subject and
    fails when the signature or the expiry check fails; an invalid or expired
    local token is a 401. *)
Definition get_payload_from_refresh_token (refresh_token : string) : @M U S string :=
  t <- get_now ;;
  match verify_signature refresh_token with
  | Some payload =>
      if exp payload <=? t then raise (HTTPException 401 (PStr "Invalid token"))
      else ret (sub payload)
  | None => raise (HTTPException 401 (PStr "Invalid token"))
  end.

(** Modelled from the spec: [add_token] of [app.crud] is not in the sources.
    It inserts a row keyed by user and token. *)
Definition add_token (user_email' : string) (token' : pyval) : @M U S unit :=
  t <- get_now ;;
  rows <- get_tokens ;;
  set_tokens (rows ++ [mkToken user_email' token' t (t + CACHED_TOKEN_EXPIRE)]).

(** Modelled from the spec: [cleanup_expired_tokens] of [app.crud] is not in
    the sources.  It deletes the cached upstream tokens of that user whose
    expiry has passed. *)
Definition cleanup_expired_tokens (user_email' : string) : @M U S unit :=
  t <- get_now ;;
  rows <- get_tokens ;;
  set_tokens (filter (fun row => negb (String.eqb (user_email row) user_email'
                                       && (expiry row <=? t))) rows).

Definition run_task (t : task) : @M U S unit :=
  match t with
  | cleanup_expired_tokens_task user_email' => cleanup_expired_tokens user_email'
  end.
End Dependencies.

(** The status the framework answers with: the reply's own status, the status
    of a raised [HTTPException], and 500 for any other exception. *)
Definition http_status (r : result reply) : Z :=
  match r with
  | Ok (JSONResponse _ status_code) => status_code
  | Ok (Response _ status_code) => status_code
  | Ok (Returned _) => HTTP_200_OK
  | Raise (HTTPException status_code _) => status_code
  | Raise _ => 500
  end.

(** [TransferSchema] of [app.schemas.schemas]: the receiver and the amount. *)
Record TransferSchema : Type := mkTransfer {
  transfer_identifier : string;
  transfer_amount : pyval
}.

(** A value the runtime computed, or the exception it raised, as a statement. *)
Definition lift {U S A : Type} (r : result A) : @M U S A :=
  fun w => (r, w).

(** ** [app/routes/wallet.py] *)

Module wallet.
Section Routes.
Context {U S : Type} {PY : PyRuntime} {PP : PaymentProcessor S}.

(** [GET /wallet/address] *)
Definition get_wallet_address (user : User) : @M U S AccountSchema :=
  try_except
    (payment_processor.get_account_data (email user))
    (fun e =>
       error_dict <- ast_literal_eval (str e) ;;
       raise (HTTPException 400 error_dict)).

(** [GET /wallet/balance] *)
Definition get_balance (current_user : User) : @M U S pyval :=
  try_except
    (if isinstance IOTAPaymentController then
       payment_processor.get_balance (email current_user)
     else
       account <- payment_processor.get_account_data (email current_user) ;;
       payment_processor.get_balance (address account))
    (fun e =>
       match e with
       | WalletException _ => raise (HTTPException 400 (PStr (str e)))
       | _ =>
           error_dict <- ast_literal_eval (str e) ;;
           raise (HTTPException 400 error_dict)
       end).

(** [GET /wallet/request_funds] *)
Definition get_request_funds (user : User) : @M U S reply :=
  response <-
    try_except
      ((if isinstance EthereumSmartContract then
          raise (HTTPException 400 (PStr "Faucet not available for Ethereum"))
        else ret tt) ;;
       account <- payment_processor.get_account_data (email user) ;;
       payment_processor.request_funds (address account))
      (fun e =>
         error_dict <- ast_literal_eval (str e) ;;
         raise (HTTPException 400 error_dict)) ;;
  ret (Response response 200).
End Routes.

Section LedgerRoutes.
Context {U S : Type} {PY : PyRuntime} {BI : Builtins} {PP : PaymentProcessor S}
        {PL : PaymentLedger S}.

(** [GET /wallet/validate_transactions] *)
Definition get_validate_transfer (user : User) : @M U S pyval :=
  payment_processor.validate_transactions.

(** [POST /wallet/filter_transactions_by] *)
Definition get_transactions_by (payload : pyval) (user : User) : @M U S pyval :=
  payment_processor.get_transaction_by_field payload.

(** [GET /wallet/transactions] *)
Definition get_transactions (user : User) : @M U S pyval :=
  try_except
    (account <- payment_processor.get_account_data (email user) ;;
     payment_processor.get_transaction_history (address account))
    (fun e => raise (HTTPException 400 (PStr (str e)))).

(** [POST /wallet/transfer] *)
Definition post_transfer_funds (payload : TransferSchema) (current_user : User)
    : @M U S pyval :=
  try_except
    (sender <-
       (if isinstance IOTAPaymentController then
          amount <- lift (py_int (transfer_amount payload)) ;;
          ret (mkTransfer (transfer_identifier payload) (PInt amount), email current_user)
        else
          account <- payment_processor.get_account_data (email current_user) ;;
          ret (payload, address account)) ;;
     let '(payload, from_identifier) := sender in
     payment_processor.execute_transaction from_identifier
       (transfer_identifier payload) (transfer_amount payload))
    (fun e => raise (HTTPException 400 (PStr (str e)))).
End LedgerRoutes.
End wallet.

(** ** [app/routes/user.py] *)

Record UserLoginSchema : Type := mkLogin {
  login_email : string;
  login_password : string
}.

Record UserRegistrationSchema : Type := mkRegistration {
  reg_email : string;
  reg_password : string;
  reg_fields : list (pyval * pyval)
}.

Definition login_model_dump (credentials : UserLoginSchema) : pyval :=
  PDict [(PStr "email", PStr (login_email credentials));
         (PStr "password", PStr (login_password credentials))].

Definition reg_model_dump (credentials : UserRegistrationSchema) : pyval :=
  PDict ((PStr "email", PStr (reg_email credentials))
         :: (PStr "password", PStr (reg_password credentials))
         :: reg_fields credentials).

(** The body of a successful login or refresh. *)
Definition token_pair (access_token refresh_token : string) : pyval :=
  PDict [(PStr "access_token", PStr access_token);
         (PStr "refresh_token", PStr refresh_token);
         (PStr "token_type", PStr "bearer")].

Definition error_content (message : string) : pyval :=
  PDict [(PStr "error", PStr message)].

(** [make_request] when it is given headers, and a JSON body or none. *)
Class AuthorizedRequests (U : Type) : Type := {
  make_request_with_headers :
    string -> string -> pyval -> option pyval -> U -> result UpstreamResponse * U
}.

(** [get_header] of [app.helpers.helper], which reads the store to build the
    headers of an upstream call for a user. *)
Class Helpers (U S : Type) : Type := {
  get_header : string -> @M U S pyval
}.

Module user.
Section Routes.
Context {U S : Type} {PY : PyRuntime} {RC : RequestContext U} {PP : PaymentProcessor S}
        {CC : CryptContext} {TS : TokenSettings}.

(** [POST /user/login] *)
Definition login (credentials : UserLoginSchema) : @M U S reply :=
  response <- on_upstream (make_request "/token" "post" (login_model_dump credentials)) ;;
  user <- authenticate_user (login_email credentials) (login_password credentials) ;;
  match user with
  | None => raise (HTTPException 400 (PStr "Incorrect username or password"))
  | Some user =>
      access_token <- create_access_token (email user) ;;
      refresh_token <- create_refresh_token (email user) ;;
      if upstream_status response =? HTTP_200_OK then
        access <- getitem (json response) "access" ;;
        add_token (email user) access ;;
        add_task (cleanup_expired_tokens_task (email user)) ;;
        ret (JSONResponse (token_pair access_token refresh_token) 200)
      else
        raise (HTTPException (upstream_status response) (PStr "Failed to login"))
  end.

(** The email column holds strings: any other value makes the query fail. *)
Definition as_email (v : pyval) : @M U S string :=
  match v with
  | PStr s => ret s
  | _ => raise (TypeError "email is not a string")
  end.

(** [POST /user/social-login]; [uuid4_hex] is the value of [uuid4().hex]. *)
Definition social_login (credentials : pyval) (uuid4_hex : string) : @M U S reply :=
  try_except
    (response <- on_upstream (make_request "/token/social" "post" credentials) ;;
     (if negb (upstream_status response =? HTTP_201_CREATED) then
        raise (HTTPException (upstream_status response) (PStr "Failed to login"))
      else ret tt) ;;
     data <- getitem (json response) "data" ;;
     user_email <- getitem data "user_email" ;;
     user_email <- as_email user_email ;;
     access <- getitem data "access" ;;
     rows <- get_users ;;
     match query_user_first user_email rows with
     | Some _ => ret tt
     | None =>
         let hashed_password := pwd_hash uuid4_hex in
         db_add_user (mkUser user_email hashed_password) ;;
         payment_processor.create_account user_email
     end ;;
     add_token user_email access ;;
     access_token <- create_access_token user_email ;;
     refresh_token <- create_refresh_token user_email ;;
     add_task (cleanup_expired_tokens_task user_email) ;;
     ret (JSONResponse (token_pair access_token refresh_token) 200))
    (fun e => ret (JSONResponse (error_content (str e)) 500)).

(** [POST /user/refresh] *)
Definition post_refresh_token (refresh_token : string) : @M U S reply :=
  email' <- get_payload_from_refresh_token refresh_token ;;
  rows <- get_users ;;
  match query_user_first email' rows with
  | None => raise (HTTPException 401 (PStr "Invalid token"))
  | Some _ =>
      new_access_token <- create_access_token email' ;;
      new_refresh_token <- create_refresh_token email' ;;
      ret (Returned (token_pair new_access_token new_refresh_token))
  end.

(** [POST /user/register] *)
Definition register_user (credentials : UserRegistrationSchema) : @M U S reply :=
  outcome <- attempt (on_upstream (make_request "/user/register/" "post"
                                                (reg_model_dump credentials))) ;;
  match outcome with
  | Raise (ConnectionError _ as e) => ret (JSONResponse (error_content (str e)) 503)
  | Raise e => raise e
  | Ok response =>
      let content := json response in
      let status_code := upstream_status response in
      if (status_code =? HTTP_201_CREATED) || (status_code =? HTTP_409_CONFLICT) then
        rows <- get_users ;;
        match query_user_first (reg_email credentials) rows with
        | Some _ => ret tt
        | None =>
            let hashed_password := pwd_hash (reg_password credentials) in
            db_add_user (mkUser (reg_email credentials) hashed_password)
        end ;;
        created <- attempt (payment_processor.create_account (reg_email credentials)) ;;
        let '(status_code, content) :=
          match created with
          | Ok _ => (status_code, content)
          | Raise e => (HTTP_400_BAD_REQUEST, error_content (str e))
          end in
        ret (JSONResponse content HTTP_201_CREATED)
      else
        raise (HTTPException status_code content)
  end.
End Routes.

Section DetailRoutes.
Context {U S : Type} {PY : PyRuntime} {AR : AuthorizedRequests U} {HP : Helpers U S}.

(** [GET /user/details] *)
Definition get_user_details (user : User) : @M U S reply :=
  header <- get_header (email user) ;;
  try_except
    (response <- on_upstream (make_request_with_headers "/user/list" "get" header None) ;;
     ret (JSONResponse (json response) 200))
    (fun e => ret (JSONResponse (error_content (str e)) 500)).

(** [PATCH /user/details]; [user_data] is
    [update_data.model_dump(exclude_unset=True)]. *)
Definition patch_user_details (user_data : pyval) (user : User) : @M U S reply :=
  header <- get_header (email user) ;;
  try_except
    (response <- on_upstream (make_request_with_headers "/user/list" "patch" header
                                                        (Some user_data)) ;;
     ret (JSONResponse (json response) 200))
    (fun e => ret (JSONResponse (error_content (str e)) 500)).
End DetailRoutes.
End user.

(** ** [app/main.py] *)

(** An item of the ['loc'] tuple of a validation error: a field name or an
    index. *)
Inductive loc_item : Type :=
| LocName (name : string)
| LocIndex (index : Z).

Definition loc_item_eqb (a b : loc_item) : bool :=
  match a, b with
  | LocName x, LocName y => String.eqb x y
  | LocIndex x, LocIndex y => x =? y
  | _, _ => false
  end.

(** One entry of [exc.errors()], with its ['loc'] and its ['msg']. *)
Record ErrorDetails : Type := mkError {
  error_loc : list loc_item;
  error_msg : string
}.

(** The dict [formatted_errors], in insertion order. *)
Definition errors_by_loc : Type := list (loc_item * list string).

(** [d[key] = value]: a key already in the dict keeps its place and takes the
    new value, a new key goes last. *)
Fixpoint dict_set (key : loc_item) (value : list string) (d : errors_by_loc) : errors_by_loc :=
  match d with
  | [] => [(key, value)]
  | (k, v) :: rest =>
      if loc_item_eqb k key then (k, value) :: rest
      else (k, v) :: dict_set key value rest
  end.

Fixpoint dict_get (key : loc_item) (d : errors_by_loc) : option (list string) :=
  match d with
  | [] => None
  | (k, v) :: rest => if loc_item_eqb k key then Some v else dict_get key rest
  end.

Definition dump_loc_item (item : loc_item) : pyval :=
  match item with
  | LocName name => PStr name
  | LocIndex index => PInt index
  end.

Definition dump_errors (d : errors_by_loc) : pyval :=
  PDict (map (fun '(k, v) => (dump_loc_item k, PList (map PStr v))) d).

Module main.

(** [loc[-1]]: the last item, or [IndexError] on the empty tuple. *)
Fixpoint last_item (loc : list loc_item) : result loc_item :=
  match loc with
  | [] => Raise (Exception "tuple index out of range")
  | [item] => Ok item
  | _ :: rest => last_item rest
  end.

(** The [for error in errors] loop over the dict built so far. *)
Fixpoint format_errors (errors : list ErrorDetails) (formatted_errors : errors_by_loc)
    : result errors_by_loc :=
  match errors with
  | [] => Ok formatted_errors
  | error :: rest =>
      match last_item (error_loc error) with
      | Ok loc => format_errors rest (dict_set loc [error_msg error] formatted_errors)
      | Raise e => Raise e
      end
  end.

(** The handler of [RequestValidationError]; [errors] is [exc.errors()]. *)
Definition validation_exception_handler (errors : list ErrorDetails) : result reply :=
  match format_errors errors [] with
  | Ok formatted_errors =>
      Ok (JSONResponse (PDict [(PStr "code", PInt 400);
                               (PStr "data", PList [dump_errors formatted_errors])])
                       400)
  | Raise e => Raise e
  end.
End main.

(** ** [run_menu.py] *)

(** [AgentManager] of [src.AgentManager]; [G] is what its objects act on. *)
Class AgentManager (G : Type) : Type := {
  new_agent_manager : G -> result unit * G;
  load_available_users : G -> result unit * G;
  create_user_wallets : Z -> G -> result unit * G;
  register_users : G -> result unit * G;
  place_bids : Z -> Z -> G -> result unit * G;
  get_wallet_addresses : G -> result unit * G;
  get_wallet_balances : G -> result unit * G;
  transfer_balance_to_address : string -> G -> result unit * G;
  request_tokens : G -> result unit * G
}.

Declare Scope menu_scope.

Module run_menu.

(** What the menu does to the terminal and to the log. *)
Inductive event : Type :=
| ClearConsole
| Printed (text : string)
| Prompt (text : string)
| LogException (message : option string) (e : exn).

(** The lines still to be typed, what was shown so far, and the world of the
    agent manager. *)
Record console {G : Type} : Type := mkConsole {
  stdin : list string;
  shown : list event;
  agents : G
}.
Arguments console : clear implicits.
Arguments mkConsole {G}.

(** How a menu function ends: it returns, [exit] raises [SystemExit], an
    exception leaves it, or the bound on the number of loop rounds is hit. *)
Inductive outcome (T : Type) : Type :=
| Return (t : T)
| SystemExit (message : string)
| Uncaught (e : exn)
| OutOfFuel.
Arguments Return {T} t.
Arguments SystemExit {T} message.
Arguments Uncaught {T} e.
Arguments OutOfFuel {T}.

(** What the [if] chain of a loop round decides. *)
Inductive control : Type :=
| NextRound
| LeaveMenu.

Section Menu.
Context {G : Type} {AM : AgentManager G} {BI : Builtins}.

Definition CLI (T : Type) : Type := console G -> outcome T * console G.

Definition pure {T} (t : T) : CLI T := fun c => (Return t, c).

Definition andthen {T T'} (m : CLI T) (k : T -> CLI T') : CLI T' :=
  fun c =>
    match m c with
    | (Return t, c') => k t c'
    | (SystemExit message, c') => (SystemExit message, c')
    | (Uncaught e, c') => (Uncaught e, c')
    | (OutOfFuel, c') => (OutOfFuel, c')
    end.

Definition emit (ev : event) : CLI unit :=
  fun c => (Return tt, mkConsole (stdin c) (shown c ++ [ev]) (agents c)).

Definition print (text : string) : CLI unit := emit (Printed text).

(** [input(prompt)]; at the end of the input it raises [EOFError]. *)
Definition input (prompt : string) : CLI string :=
  fun c =>
    match stdin c with
    | line :: rest => (Return line, mkConsole rest (shown c ++ [Prompt prompt]) (agents c))
    | [] => (Uncaught (Exception "EOF when reading a line"),
             mkConsole [] (shown c ++ [Prompt prompt]) (agents c))
    end.

(** [exit(message)] *)
Definition exit {T} (message : string) : CLI T := fun c => (SystemExit message, c).

(** [int(text)] *)
Definition int (text : string) : CLI Z :=
  fun c =>
    match py_int (PStr text) with
    | Ok z => (Return z, c)
    | Raise e => (Uncaught e, c)
    end.

(** A call of the agent manager. *)
Definition ag {T} (f : G -> result T * G) : CLI T :=
  fun c =>
    match f (agents c) with
    | (Ok t, g') => (Return t, mkConsole (stdin c) (shown c) g')
    | (Raise e, g') => (Uncaught e, mkConsole (stdin c) (shown c) g')
    end.

(** [try: m except Exception as ex: h ex]; [SystemExit] is no [Exception]. *)
Definition try_except_Exception {T} (m : CLI T) (h : exn -> CLI T) : CLI T :=
  fun c =>
    match m c with
    | (Uncaught e, c') => h e c'
    | r => r
    end.

End Menu.

Notation "x <- m ;; k" := (andthen m (fun x => k))
  (at level 61, m at next level, right associativity) : menu_scope.
Notation "m ;; k" := (andthen m (fun _ => k))
  (at level 61, right associativity) : menu_scope.

Section Menus.
Context {G : Type} {AM : AgentManager G} {BI : Builtins}.
Local Open Scope menu_scope.

Definition _clear_console : @CLI G unit := emit ClearConsole.

Definition _empty : @CLI G unit := print "".

Definition _sep : @CLI G unit := print "===========================================".

Definition lower_char (ch : ascii) : ascii :=
  let n := nat_of_ascii ch in
  if ((65 <=? n) && (n <=? 90))%nat then ascii_of_nat (n + 32) else ch.

(** [s.lower()] on the ASCII letters. *)
Fixpoint lower (s : string) : string :=
  match s with
  | EmptyString => EmptyString
  | String ch rest => String (lower_char ch) (lower rest)
  end.

Definition installation_menu : @CLI G unit :=
  _clear_console ;;
  print ("This will create a new market wallet & account for a "
         ++ "predefined number of users.") ;;
  choice <- input "Proceed? (Y/n)" ;;
  (if String.eqb (lower choice) "y" then
     line <- input "Define number of users to create: " ;;
     nr_users <- int line ;;
     ag new_agent_manager ;;
     ag (create_user_wallets nr_users)
   else pure tt) ;;
  input "Press any key to continue." ;;
  pure tt.

(** The [while True] of [market_menu], for at most [fuel] rounds. *)
Fixpoint market_loop (fuel : nat) : @CLI G unit :=
  match fuel with
  | O => fun c => (OutOfFuel, c)
  | Datatypes.S fuel =>
      _clear_console ;;
      print "     Market OPS MENU" ;;
      print "1  - Register users in market platform" ;;
      print "2  - Place market bids" ;;
      _sep ;;
      print "9 - Return to previous menu." ;;
      print "0 - Exit" ;;
      _empty ;;
      choice <- input "Please make a choice: " ;;
      (if String.eqb choice "1" then
         try_except_Exception
           (ag register_users)
           (fun e => emit (LogException (Some "Failed to register users") e))
       else pure tt) ;;
      next <-
        (if String.eqb choice "2" then
           try_except_Exception
             (line <- input "Define max_payment: " ;;
              max_payment <- int line ;;
              line <- input "Define bid_price: " ;;
              bid_price <- int line ;;
              ag (place_bids max_payment bid_price))
             (fun e => emit (LogException (Some "Failed to register users") e)) ;;
           pure NextRound
         else if String.eqb choice "9" then pure LeaveMenu
         else if String.eqb choice "0" then exit "Exit."
         else print "Invalid option." ;; pure NextRound) ;;
      match next with
      | LeaveMenu => pure tt
      | NextRound => input "Press any key to continue." ;; market_loop fuel
      end
  end.

Definition market_menu (fuel : nat) : @CLI G unit :=
  ag new_agent_manager ;;
  ag load_available_users ;;
  market_loop fuel.

(** The [while True] of [wallet_menu], for at most [fuel] rounds. *)
Fixpoint wallet_loop (fuel : nat) : @CLI G unit :=
  match fuel with
  | O => fun c => (OutOfFuel, c)
  | Datatypes.S fuel =>
      _clear_console ;;
      print "     Wallet OPS MENU" ;;
      print "1  - Get wallet addresses" ;;
      print "2  - Get wallet balances" ;;
      print "3  - Transfer users wallet balances to address" ;;
      print "4  - Request tokens from IOTA faucet" ;;
      _sep ;;
      print "9 - Return to previous menu." ;;
      print "0 - Exit" ;;
      _empty ;;
      choice <- input "Please make a choice: " ;;
      next <-
        (if String.eqb choice "1" then
           try_except_Exception (ag get_wallet_addresses)
             (fun ex => emit (LogException None ex)) ;;
           pure NextRound
         else if String.eqb choice "2" then
           try_except_Exception (ag get_wallet_balances)
             (fun ex => emit (LogException None ex)) ;;
           pure NextRound
         else if String.eqb choice "3" then
           try_except_Exception
             (out_address <- input "Enter output address: " ;;
              ag (transfer_balance_to_address out_address))
             (fun ex => emit (LogException None ex)) ;;
           pure NextRound
         else if String.eqb choice "4" then
           try_except_Exception (ag request_tokens)
             (fun ex => emit (LogException None ex)) ;;
           pure NextRound
         else if String.eqb choice "9" then pure LeaveMenu
         else if String.eqb choice "0" then exit "Exit."
         else print "Invalid option." ;; pure NextRound) ;;
      match next with
      | LeaveMenu => pure tt
      | NextRound => input "Press any key to continue." ;; wallet_loop fuel
      end
  end.

Definition wallet_menu (fuel : nat) : @CLI G unit :=
  ag new_agent_manager ;;
  ag load_available_users ;;
  wallet_loop fuel.

(** [main], for at most [fuel] rounds of any loop. *)
Fixpoint main (fuel : nat) : @CLI G unit :=
  match fuel with
  | O => fun c => (OutOfFuel, c)
  | Datatypes.S fuel =>
      _clear_console ;;
      print "     CLIENT MAIN MENU - Wallet Detected" ;;
      print "1  - Market Operations" ;;
      print "2  - Wallet Operations" ;;
      _sep ;;
      print "0 - Exit" ;;
      _empty ;;
      choice <- input "Please make a choice: " ;;
      (if String.eqb choice "1" then market_menu fuel else pure tt) ;;
      (if String.eqb choice "2" then wallet_menu fuel
       else if String.eqb choice "0" then exit "Exit."
       else print "Invalid option.") ;;
      main fuel
  end.

(** [main_no_installation], for at most [fuel] rounds of any loop. *)
Fixpoint main_no_installation (fuel : nat) : @CLI G unit :=
  match fuel with
  | O => fun c => (OutOfFuel, c)
  | Datatypes.S fuel =>
      _clear_console ;;
      print "     CLIENT MAIN MENU - No Users Detected" ;;
      print "1  - Create users wallets" ;;
      _sep ;;
      print "0 - Exit" ;;
      _empty ;;
      choice <- input "Please make a choice: " ;;
      (if String.eqb choice "1" then installation_menu ;; main fuel
       else if String.eqb choice "0" then exit "Exit."
       else print "Invalid option.") ;;
      main_no_installation fuel
  end.
End Menus.
End run_menu.

(** ** Test doubles

    Small executable stand-ins for the external collaborators, on which the
    routes can be run: a scripted market server, an in-memory payment
    gateway, a toy password context, a toy token signer, and a reader for a
    fragment of Python's literal syntax. *)

Module Fixture.

(** The scripted market server answers each call with the next outcome of its
    script, and refuses the connection when the script is over. *)
Definition scripted_upstream : RequestContext (list (result UpstreamResponse)) :=
  {| make_request := fun _ _ _ script =>
       match script with
       | outcome :: rest => (outcome, rest)
       | [] => (Raise (ConnectionError "connection refused"), [])
       end |}.

Definition has_account (identifier' : string) (accounts : list string) : bool :=
  existsb (String.eqb identifier') accounts.

(** The in-memory gateway keeps the identifiers that have an account. *)
Definition memory_gateway (cls : backend_class) : PaymentProcessor (list string) :=
  {| backend := cls;
     sdk_create_account := fun identifier' accounts =>
       if has_account identifier' accounts
       then (Raise (Exception "{'error': 'account exists'}"), accounts)
       else (Ok tt, identifier' :: accounts);
     sdk_get_account_data := fun identifier' accounts =>
       if has_account identifier' accounts
       then (Ok (mkAccount identifier' ("addr:" ++ identifier')), accounts)
       else (Raise (Exception "{'error': 'unknown account'}"), accounts);
     sdk_get_balance := fun identifier' accounts =>
       if has_account identifier' accounts || has_account identifier' (map (append "addr:") accounts)
       then (Ok (PInt 0), accounts)
       else (Raise (WalletException "no such wallet"), accounts);
     sdk_request_funds := fun identifier' accounts =>
       if has_account identifier' (map (append "addr:") accounts)
       then (Ok "{}", accounts)
       else (Raise (Exception "faucet is dry"), accounts) |}.

Definition toy_crypt : CryptContext :=
  {| pwd_hash := fun password => "hash:" ++ password;
     pwd_verify := fun password hashed => String.eqb hashed ("hash:" ++ password) |}.

(** The toy signer writes the expiry in unary before the subject. *)
Fixpoint ones (n : nat) : string :=
  match n with
  | O => EmptyString
  | Datatypes.S n => String "1" (ones n)
  end.

Fixpoint read_ones (s : string) (n : nat) : option (nat * string) :=
  match s with
  | String "1" rest => read_ones rest (Datatypes.S n)
  | String "." rest => Some (n, rest)
  | _ => None
  end.

Definition toy_sign (payload : claims) : string :=
  (if exp payload <? 0 then "-" else "+")
    ++ ones (Z.abs_nat (exp payload)) ++ "." ++ sub payload.

Definition toy_verify (s : string) : option claims :=
  match s with
  | String "+" rest =>
      match read_ones rest 0 with
      | Some (n, subject) => Some (mkClaims subject (Z.of_nat n))
      | None => None
      end
  | String "-" rest =>
      match read_ones rest 0 with
      | Some (Datatypes.S n, subject) => Some (mkClaims subject (- Z.of_nat (Datatypes.S n)))
      | _ => None
      end
  | _ => None
  end.

Definition toy_tokens : TokenSettings :=
  {| sign := toy_sign;
     verify_signature := toy_verify;
     ACCESS_TOKEN_EXPIRE := 3;
     REFRESH_TOKEN_EXPIRE := 6;
     CACHED_TOKEN_EXPIRE := 4 |}.

(** A reader for literals made of [None], [True], [False], decimal integers,
    quoted strings without escapes, lists and dicts. *)
Definition is_space (c : ascii) : bool :=
  (c =? " ")%char || (c =? "009")%char.

Definition is_digit (c : ascii) : bool :=
  ((48 <=? nat_of_ascii c) && (nat_of_ascii c <=? 57))%nat.

Fixpoint skip_spaces (s : string) : string :=
  match s with
  | String c rest => if is_space c then skip_spaces rest else s
  | EmptyString => s
  end.

Fixpoint read_digits (s : string) (acc : Z) : Z * string :=
  match s with
  | String c rest =>
      if is_digit c then read_digits rest (10 * acc + Z.of_nat (nat_of_ascii c - 48))
      else (acc, s)
  | EmptyString => (acc, s)
  end.

(** A decimal integer without sign; a leading zero is only the number zero. *)
Definition read_number (s : string) : option (Z * string) :=
  match s with
  | String "0" (String c _ as rest) =>
      if is_digit c then None else Some (0, rest)
  | String c _ => if is_digit c then Some (read_digits s 0) else None
  | EmptyString => None
  end.

Fixpoint read_quoted (quote : ascii) (s : string) : option (string * string) :=
  match s with
  | EmptyString => None
  | String c rest =>
      if (c =? quote)%char then Some (EmptyString, rest)
      else if (c =? "\")%char || (c =? "010")%char then None
      else match read_quoted quote rest with
           | Some (body, rest') => Some (String c body, rest')
           | None => None
           end
  end.

Fixpoint strip_prefix (prefix s : string) : option string :=
  match prefix, s with
  | EmptyString, _ => Some s
  | String a prefix', String b s' => if (a =? b)%char then strip_prefix prefix' s' else None
  | _, _ => None
  end.

Definition read_keyword (s : string) : option (pyval * string) :=
  match strip_prefix "None" s, strip_prefix "True" s, strip_prefix "False" s with
  | Some rest, _, _ => Some (PNone, rest)
  | _, Some rest, _ => Some (PBool true, rest)
  | _, _, Some rest => Some (PBool false, rest)
  | _, _, _ => None
  end.

Fixpoint read_value (fuel : nat) (s : string) : option (pyval * string) :=
  match fuel with
  | O => None
  | Datatypes.S fuel =>
      match skip_spaces s with
      | String "'" rest =>
          option_map (fun '(body, rest') => (PStr body, rest')) (read_quoted "'" rest)
      | String "034" rest =>
          option_map (fun '(body, rest') => (PStr body, rest')) (read_quoted "034" rest)
      | String "[" rest =>
          option_map (fun '(items, rest') => (PList items, rest')) (read_items fuel rest)
      | String "{" rest =>
          option_map (fun '(items, rest') => (PDict items, rest')) (read_pairs fuel rest)
      | String "-" rest =>
          option_map (fun '(z, rest') => (PInt (- z), rest')) (read_number rest)
      | String c _ as s' =>
          if is_digit c
          then option_map (fun '(z, rest') => (PInt z, rest')) (read_number s')
          else read_keyword s'
      | EmptyString => None
      end
  end
with read_items (fuel : nat) (s : string) : option (list pyval * string) :=
  match fuel with
  | O => None
  | Datatypes.S fuel =>
      match skip_spaces s with
      | String "]" rest => Some ([], rest)
      | s' =>
          match read_value fuel s' with
          | Some (v, rest) =>
              match skip_spaces rest with
              | String "," rest' =>
                  option_map (fun '(vs, rest'') => (v :: vs, rest'')) (read_items fuel rest')
              | String "]" rest' => Some ([v], rest')
              | _ => None
              end
          | None => None
          end
      end
  end
with read_pairs (fuel : nat) (s : string) : option (list (pyval * pyval) * string) :=
  match fuel with
  | O => None
  | Datatypes.S fuel =>
      match skip_spaces s with
      | String "}" rest => Some ([], rest)
      | s' =>
          match read_value fuel s' with
          | Some (k, rest) =>
              match skip_spaces rest with
              | String ":" rest' =>
                  match read_value fuel rest' with
                  | Some (v, rest'') =>
                      match skip_spaces rest'' with
                      | String "," rest3 =>
                          option_map (fun '(kvs, rest4) => ((k, v) :: kvs, rest4))
                                     (read_pairs fuel rest3)
                      | String "}" rest3 => Some ([(k, v)], rest3)
                      | _ => None
                      end
                  | None => None
                  end
              | _ => None
              end
          | None => None
          end
      end
  end.

Definition read_literal (s : string) : option pyval :=
  match read_value (Datatypes.S (String.length s)) s with
  | Some (v, rest) =>
      match skip_spaces rest with
      | EmptyString => Some v
      | _ => None
      end
  | None => None
  end.

Definition show (v : pyval) : string :=
  match v with
  | PNone => "None"
  | PBool true => "True"
  | PBool false => "False"
  | PInt z => decimal z
  | PStr s => s
  | PList _ => "[...]"
  | PDict _ => "{...}"
  | PObject repr => repr
  end.

Definition toy_runtime : PyRuntime :=
  {| literal_eval := read_literal; py_str := show |}.

Definition alice : User := mkUser "alice@example.org" "hash:wonderland".

Definition World : Type := world (list (result UpstreamResponse)) (list string).

(** A world at time [t] with empty token cache, task queue and call record. *)
Definition at_time (t : Z) (script : list (result UpstreamResponse)) (rows : list User)
    (accounts : list string) : World :=
  mkWorld rows [] [] [] t script accounts.

Definition start := at_time 1.

Definition alice_login : UserLoginSchema := mkLogin "alice@example.org" "wonderland".

Definition alice_wrong_password : UserLoginSchema := mkLogin "alice@example.org" "queen".

Definition alice_registration : UserRegistrationSchema :=
  mkRegistration "alice@example.org" "wonderland" [].

Definition accepted : UpstreamResponse :=
  mkUpstream 200 (PDict [(PStr "access", PStr "upstream-access");
                         (PStr "refresh", PStr "upstream-refresh")]).

Definition rejected : UpstreamResponse :=
  mkUpstream 401 (PDict [(PStr "detail", PStr "No active account found")]).

Definition created : UpstreamResponse :=
  mkUpstream 201 (PDict [(PStr "email", PStr "alice@example.org")]).

Definition conflict : UpstreamResponse :=
  mkUpstream 409 (PDict [(PStr "detail", PStr "user already exists")]).

Definition ethereum : PaymentProcessor (list string) := memory_gateway EthereumSmartContract.

Definition iota : PaymentProcessor (list string) := memory_gateway IOTAPaymentController.

Definition alice_email : string := "alice@example.org".

(** The in-memory gateway keeps no transactions; a transfer echoes what it
    was asked for. *)
Definition memory_ledger : PaymentLedger (list string) :=
  {| sdk_validate_transactions := fun accounts => (Ok (PList []), accounts);
     sdk_get_transaction_by_field := fun _ accounts => (Ok (PList []), accounts);
     sdk_get_transaction_history := fun address' accounts =>
       if has_account address' (map (append "addr:") accounts)
       then (Ok (PList []), accounts)
       else (Raise (WalletException "no such wallet"), accounts);
     sdk_execute_transaction := fun sender receiver value accounts =>
       if has_account sender accounts || has_account sender (map (append "addr:") accounts)
       then (Ok (PDict [(PStr "from", PStr sender); (PStr "to", PStr receiver);
                        (PStr "value", value)]), accounts)
       else (Raise (Exception "unknown sender"), accounts) |}.

(** [int] on integers, booleans and strings of decimal digits. *)
Definition toy_builtins : Builtins :=
  {| py_int := fun v =>
       match v with
       | PInt z => Ok z
       | PBool b => Ok (if b then 1 else 0)
       | PStr s =>
           match read_number s with
           | Some (z, EmptyString) => Ok z
           | _ => Raise (Exception ("invalid literal for int() with base 10: '" ++ s ++ "'"))
           end
       | _ => Raise (TypeError "int() argument must be a string or a real number")
       end |}.

(** The scripted market server, for the calls with headers. *)
Definition scripted_authorized : AuthorizedRequests (list (result UpstreamResponse)) :=
  {| make_request_with_headers := fun _ _ _ _ script =>
       match script with
       | outcome :: rest => (outcome, rest)
       | [] => (Raise (ConnectionError "connection refused"), [])
       end |}.

(** The header made of the last token cached for the user. *)
Definition cached_header
    : Helpers (list (result UpstreamResponse)) (list string) :=
  {| get_header := fun user_email' w =>
       match find (fun row => String.eqb (user_email row) user_email') (rev (tokens w)) with
       | Some row => (Ok (PDict [(PStr "Authorization", PStr ("Bearer " ++ show (token row)))]), w)
       | None => (Raise (Exception "no token for this user"), w)
       end |}.

(** A social login that the market server accepts for Bob. *)
Definition bob_accepted : UpstreamResponse :=
  mkUpstream 201 (PDict [(PStr "data", PDict [(PStr "user_email", PStr "bob@example.org");
                                              (PStr "access", PStr "upstream-bob")])]).

Definition no_data : UpstreamResponse :=
  mkUpstream 201 (PDict [(PStr "detail", PStr "created")]).

Definition no_access : UpstreamResponse :=
  mkUpstream 200 (PDict [(PStr "refresh", PStr "upstream-refresh")]).

Definition not_found : UpstreamResponse :=
  mkUpstream 404 (PDict [(PStr "detail", PStr "Not found")]).

(** An agent manager that writes down what it is asked, and fails at every
    operation when [fails] is set. *)
Definition noted (what : string) (fails : bool) (notes : list string)
    : result unit * list string :=
  if fails then (Raise (Exception (what ++ " failed")), (notes ++ [what])%list)
  else (Ok tt, (notes ++ [what])%list).

Definition toy_agents (fails : bool) : AgentManager (list string) :=
  {| new_agent_manager := fun notes => (Ok tt, notes);
     load_available_users := noted "load" false;
     create_user_wallets := fun n => noted ("create " ++ decimal n) fails;
     register_users := noted "register" fails;
     place_bids := fun a b => noted ("bids " ++ decimal a ++ " " ++ decimal b) fails;
     get_wallet_addresses := noted "addresses" fails;
     get_wallet_balances := noted "balances" fails;
     transfer_balance_to_address := fun address' => noted ("transfer " ++ address') fails;
     request_tokens := noted "faucet" fails |}.

(** A terminal with the given lines to come. *)
Definition typed (lines : list string) : run_menu.console (list string) :=
  run_menu.mkConsole lines [] [].
End Fixture.

(** ** What the error handlers of the wallet routes answer *)

(** The result of re-parsing the string form of a caught exception: a 400
    whose detail is the parsed literal, or the exception of the parser. *)
Definition reparsed {PY : PyRuntime} {A : Type} (e : exn) : result A :=
  match literal_eval (str e) with
  | Some error_dict => Raise (HTTPException 400 error_dict)
  | None => Raise (MalformedLiteral (str e))
  end.

Definition is_wallet_exception (e : exn) : bool :=
  match e with
  | WalletException _ => true
  | _ => false
  end.

(** What the balance handler answers: a [WalletException] gives a 400 with
    its string form, anything else is re-parsed. *)
Definition balance_error {PY : PyRuntime} (e : exn) : result pyval :=
  if is_wallet_exception e then Raise (HTTPException 400 (PStr (str e)))
  else reparsed e.

Definition faucet_rejection : exn :=
  HTTPException 400 (PStr "Faucet not available for Ethereum").

(** The calls a handler added to the record of SDK calls. *)
Definition calls_since {U S : Type} (before after : world U S) (calls : list sdk_call) : Prop :=
  sdk_calls after = (sdk_calls before ++ calls)%list.

(** ** Vocabulary for the user routes *)


(** A handler result that carries the upstream status and the upstream body,
    unchanged, as its error. *)
Definition passes_through (response : UpstreamResponse) (r : result reply) : Prop :=
  r = Raise (HTTPException (upstream_status response) (json response))
  \/ r = Ok (JSONResponse (json response) (upstream_status response)).

(** The supplied password does not match the stored hash for that email, or
    there is no row for that email. *)
Definition local_mismatch {CC : CryptContext} (credentials : UserLoginSchema)
    (rows : list User) : Prop :=
  query_user_first (login_email credentials) rows = None
  \/ exists user, query_user_first (login_email credentials) rows = Some user
                  /\ pwd_verify (login_password credentials) (password_hash user) = false.

(** The supplied password matches the stored hash of the row [user]. *)
Definition local_match {CC : CryptContext} (credentials : UserLoginSchema)
    (rows : list User) (user : User) : Prop :=
  query_user_first (login_email credentials) rows = Some user
  /\ pwd_verify (login_password credentials) (password_hash user) = true.

(** A refresh token that [/user/refresh] must turn down: its signature does
    not check (a tampered token), or its expiry has passed. *)
Definition invalid_refresh_token {TS : TokenSettings} (refresh_token : string) (t : Z) : Prop :=
  verify_signature refresh_token = None
  \/ exists payload, verify_signature refresh_token = Some payload /\ exp payload <= t.

(** The world [/user/register] leaves behind once the market server has
    answered 201 or 409 and handed over the connection state [u']: the row
    is added if none has the email, then the payment account is asked for. *)
Definition registered {U S : Type} {PP : PaymentProcessor S} {CC : CryptContext}
    (credentials : UserRegistrationSchema) (u' : U) (w : world U S)
    : result unit * world U S :=
  let rows :=
    match query_user_first (reg_email credentials) (users w) with
    | Some _ => users w
    | None => (users w ++ [mkUser (reg_email credentials)
                                  (pwd_hash (reg_password credentials))])%list
    end in
  (fst (sdk_create_account (reg_email credentials) (sdk w)),
   mkWorld rows (tokens w) (background_tasks w)
           (sdk_calls w ++ [CreateAccount (reg_email credentials)])
           (now w) u' (snd (sdk_create_account (reg_email credentials) (sdk w)))).

(** ** Vocabulary for the other routes *)

(** A world with the connection state of the market server replaced. *)
Definition with_upstream {U S : Type} (u' : U) (w : world U S) : world U S :=
  mkWorld (users w) (tokens w) (background_tasks w) (sdk_calls w) (now w) u' (sdk w).

(** The market server accepts a social login for [user_email] and hands over
    the token [access]: status 201 and a body with both under ["data"]. *)
Definition social_answer (response : UpstreamResponse) (user_email' : string)
    (access : pyval) : Prop :=
  upstream_status response = HTTP_201_CREATED
  /\ exists items data,
       json response = PDict items
       /\ lookup_key "data" items = Some (PDict data)
       /\ lookup_key "user_email" data = Some (PStr user_email')
       /\ lookup_key "access" data = Some access.

(** The world after a social login has cached the token and queued the
    cleanup. *)
Definition token_cached {U S : Type} {TS : TokenSettings} (user_email' : string)
    (access : pyval) (w : world U S) : world U S :=
  mkWorld (users w)
          (tokens w ++ [mkToken user_email' access (now w) (now w + CACHED_TOKEN_EXPIRE)])
          (background_tasks w ++ [cleanup_expired_tokens_task user_email'])
          (sdk_calls w) (now w) (upstream w) (sdk w).

(** The reply that carries a fresh token pair for [subject]. *)
Definition tokens_for {U S : Type} {TS : TokenSettings} (subject : string)
    (w : world U S) : reply :=
  JSONResponse (token_pair (sign (mkClaims subject (now w + ACCESS_TOKEN_EXPIRE)))
                           (sign (mkClaims subject (now w + REFRESH_TOKEN_EXPIRE))))
               200.

(** The local store and the SDK are as they were. *)
Definition store_untouched {U S : Type} (before after : world U S) : Prop :=
  users after = users before
  /\ tokens after = tokens before
  /\ background_tasks after = background_tasks before
  /\ sdk_calls after = sdk_calls before
  /\ sdk after = sdk before.

(** The last item of the location of [error] is [key]. *)
Definition reported_at (key : loc_item) (error : ErrorDetails) : bool :=
  match main.last_item (error_loc error) with
  | Ok item => loc_item_eqb item key
  | Raise _ => false
  end.

(** What a handler that answers every exception with its string form makes
    of a result. *)
Definition as_bad_request {PY : PyRuntime} {A : Type} (r : result A) : result A :=
  match r with
  | Ok a => Ok a
  | Raise e => Raise (HTTPException 400 (PStr (str e)))
  end.

(** ** Vocabulary for the menus *)

(** Run from [c], the menu function [m] does not hit the bound on the loop
    rounds and leaves at most the lines it found. *)
Definition ends_within {G T : Type} (m : @run_menu.CLI G T) (c : run_menu.console G) : Prop :=
  fst (m c) <> run_menu.OutOfFuel
  /\ (length (run_menu.stdin (snd (m c))) <= length (run_menu.stdin c))%nat.

(** [m] ends whenever fewer than [fuel] lines are left to read. *)
Definition ends_below {G T : Type} (fuel : nat) (m : @run_menu.CLI G T) : Prop :=
  forall c, (length (run_menu.stdin c) < fuel)%nat -> ends_within m c.

(** What is on the terminal after the header of a menu and the prompt for
    the choice. *)
Definition asked {G : Type} (header : list string) (c : run_menu.console G)
    (rest : list string) : run_menu.console G :=
  run_menu.mkConsole rest
    (run_menu.shown c ++ run_menu.ClearConsole :: map run_menu.Printed header
       ++ [run_menu.Prompt "Please make a choice: "])
    (run_menu.agents c).

Definition main_header : list string :=
  ["     CLIENT MAIN MENU - Wallet Detected"; "1  - Market Operations";
   "2  - Wallet Operations"; "==========================================="; "0 - Exit"; ""].

Definition market_header : list string :=
  ["     Market OPS MENU"; "1  - Register users in market platform";
   "2  - Place market bids"; "==========================================="; 
   "9 - Return to previous menu."; "0 - Exit"; ""].

Definition wallet_header : list string :=
  ["     Wallet OPS MENU"; "1  - Get wallet addresses"; "2  - Get wallet balances";
   "3  - Transfer users wallet balances to address";
   "4  - Request tokens from IOTA faucet"; "===========================================";
   "9 - Return to previous menu."; "0 - Exit"; ""].

(** The console with one more event shown. *)
Definition showing {G : Type} (ev : run_menu.event) (c : run_menu.console G)
    : run_menu.console G :=
  run_menu.mkConsole (run_menu.stdin c) (run_menu.shown c ++ [ev]) (run_menu.agents c).

(** The console with the world of the agent manager replaced. *)
Definition with_agents {G : Type} (g : G) (c : run_menu.console G) : run_menu.console G :=
  run_menu.mkConsole (run_menu.stdin c) (run_menu.shown c) g.

(** [m] ends from every console. *)
Definition ends {G T : Type} (m : @run_menu.CLI G T) : Prop :=
  forall c, ends_within m c.

(** Where [m] does not hit the bound on the loop rounds, [m'] does as [m]. *)
Definition stable {G T : Type} (m m' : @run_menu.CLI G T) : Prop :=
  forall c, fst (m c) <> run_menu.OutOfFuel -> m' c = m c.

(** A call of the [try] block of [/wallet/transactions], run from [w],
    raises [cause]. *)
Definition transactions_block_raises {U S : Type} {PP : PaymentProcessor S}
    {PL : PaymentLedger S} (user : User) (w : world U S) (cause : exn) : Prop :=
  (exists s', sdk_get_account_data (email user) (sdk w) = (Raise cause, s'))
  \/ (exists account s1 s2,
        sdk_get_account_data (email user) (sdk w) = (Ok account, s1)
        /\ sdk_get_transaction_history (address account) s1 = (Raise cause, s2)).

(** A call of the [try] block of [/wallet/transfer], run from [w], raises
    [cause]: [int] or the transfer on the IOTA backend, the account lookup
    or the transfer on another one. *)
Definition transfer_block_raises {U S : Type} {BI : Builtins} {PP : PaymentProcessor S}
    {PL : PaymentLedger S} (payload : TransferSchema) (user : User) (w : world U S)
    (cause : exn) : Prop :=
  (backend = IOTAPaymentController /\ py_int (transfer_amount payload) = Raise cause)
  \/ (backend = IOTAPaymentController
      /\ exists amount s',
           py_int (transfer_amount payload) = Ok amount
           /\ sdk_execute_transaction (email user) (transfer_identifier payload)
                                      (PInt amount) (sdk w) = (Raise cause, s'))
  \/ (backend <> IOTAPaymentController
      /\ exists s', sdk_get_account_data (email user) (sdk w) = (Raise cause, s'))
  \/ (backend <> IOTAPaymentController
      /\ exists account s1 s2,
           sdk_get_account_data (email user) (sdk w) = (Ok account, s1)
           /\ sdk_execute_transaction (address account) (transfer_identifier payload)
                                      (transfer_amount payload) s1 = (Raise cause, s2)).

(** * Properties *)

Ltac run :=
  unfold try_except, bind, ret, raise, attempt, get_now, get_users, set_users,
    get_tokens, set_tokens, add_task, log_call, on_sdk, on_upstream in *;
  cbn [fst snd users tokens background_tasks sdk_calls now upstream sdk] in *.

Section WalletProperties.
Context {U S : Type} {PY : PyRuntime} {PP : PaymentProcessor S}.

Hypothesis py_str_of_string : forall s, py_str (PStr s) = s.

Lemma str_faucet_rejection :
  str faucet_rejection = "400: Faucet not available for Ethereum".
Proof.
  unfold faucet_rejection, str. rewrite py_str_of_string. reflexivity.
Qed.

Lemma append_calls (w : world U S) (c1 c2 : sdk_call) :
  ((sdk_calls w ++ [c1]) ++ [c2] = sdk_calls w ++ [c1; c2])%list.
Proof. rewrite <- app_assoc. reflexivity. Qed.

Lemma get_account_data_run (identifier' : string) (w : world U S) :
  payment_processor.get_account_data identifier' w
  = (fst (sdk_get_account_data identifier' (sdk w)),
     mkWorld (users w) (tokens w) (background_tasks w)
             (sdk_calls w ++ [GetAccountData identifier']) (now w) (upstream w)
             (snd (sdk_get_account_data identifier' (sdk w)))).
Proof.
  unfold payment_processor.get_account_data. run.
  destruct (sdk_get_account_data identifier' (sdk w)); reflexivity.
Qed.

Lemma get_balance_run (identifier' : string) (w : world U S) :
  payment_processor.get_balance identifier' w
  = (fst (sdk_get_balance identifier' (sdk w)),
     mkWorld (users w) (tokens w) (background_tasks w)
             (sdk_calls w ++ [GetBalance identifier']) (now w) (upstream w)
             (snd (sdk_get_balance identifier' (sdk w)))).
Proof.
  unfold payment_processor.get_balance. run.
  destruct (sdk_get_balance identifier' (sdk w)); reflexivity.
Qed.

Lemma request_funds_run (identifier' : string) (w : world U S) :
  payment_processor.request_funds identifier' w
  = (fst (sdk_request_funds identifier' (sdk w)),
     mkWorld (users w) (tokens w) (background_tasks w)
             (sdk_calls w ++ [RequestFunds identifier']) (now w) (upstream w)
             (snd (sdk_request_funds identifier' (sdk w)))).
Proof.
  unfold payment_processor.request_funds. run.
  destruct (sdk_request_funds identifier' (sdk w)); reflexivity.
Qed.

(** The handler the wallet routes share, run after a [try] block that
    raised [e] in world [w']: it re-parses [str e] and changes nothing. *)
Lemma literal_handler_run {A : Type} (m : M A) (e : exn) (w w' : world U S) :
  m w = (Raise e, w') ->
  try_except m (fun e => error_dict <- ast_literal_eval (str e) ;;
                         raise (HTTPException 400 error_dict)) w
  = (reparsed e, w').
Proof.
  intros Hm. unfold try_except. rewrite Hm.
  unfold ast_literal_eval, reparsed. run.
  destruct (literal_eval (str e)); reflexivity.
Qed.

Lemma balance_handler_run (e : exn) (w : world U S) :
  match e with
  | WalletException _ => raise (HTTPException 400 (PStr (str e)))
  | _ => error_dict <- ast_literal_eval (str e) ;;
         raise (HTTPException 400 error_dict)
  end w = (balance_error e, w).
Proof.
  unfold balance_error, reparsed, ast_literal_eval.
  destruct e; cbn [is_wallet_exception]; run; try reflexivity;
    match goal with |- context [literal_eval ?s] => destruct (literal_eval s) end;
    reflexivity.
Qed.

(** [GET /wallet/balance] on the IOTA backend, step by step. *)
Lemma get_balance_iota (current_user : User) (w : world U S) :
  backend = IOTAPaymentController ->
  wallet.get_balance current_user w
  = (match fst (sdk_get_balance (email current_user) (sdk w)) with
     | Ok balance => Ok balance
     | Raise e => balance_error e
     end,
     snd (payment_processor.get_balance (U := U) (email current_user) w)).
Proof.
  intros Hb. unfold wallet.get_balance, isinstance. rewrite Hb.
  unfold try_except. rewrite get_balance_run. cbn [fst snd].
  destruct (fst (sdk_get_balance (email current_user) (sdk w))) as [balance | e].
  - reflexivity.
  - apply balance_handler_run.
Qed.

(** [GET /wallet/balance] on any other backend, step by step. *)
Lemma get_balance_other (current_user : User) (w : world U S) :
  backend <> IOTAPaymentController ->
  wallet.get_balance current_user w
  = match payment_processor.get_account_data (email current_user) w with
    | (Ok account, w1) =>
        (match fst (sdk_get_balance (address account) (sdk w1)) with
         | Ok balance => Ok balance
         | Raise e => balance_error e
         end,
         snd (payment_processor.get_balance (address account) w1))
    | (Raise e, w1) => (balance_error e, w1)
    end.
Proof.
  intros Hb. unfold wallet.get_balance, isinstance.
  destruct backend; try congruence.
  all: unfold try_except, bind; rewrite get_account_data_run; cbn [fst snd].
  all: destruct (fst (sdk_get_account_data (email current_user) (sdk w))) as [account | e];
    [ rewrite get_balance_run; cbn [fst snd sdk];
      match goal with
      | |- context [fst (sdk_get_balance ?i ?s)] =>
          destruct (fst (sdk_get_balance i s)) as [balance | e]
      end;
      [ reflexivity | apply balance_handler_run ]
    | apply balance_handler_run ].
Qed.

(** C6: on [/wallet/balance] the IOTA backend is asked for the balance of the
    user's email and for nothing else; any other backend is first asked for
    the account data of the email and then for the balance of the address it
    resolved, and the balance the SDK gives is the one returned. *)
Theorem balance_call_pattern (current_user : User) (w : world U S) :
  let after := snd (wallet.get_balance current_user w) in
  (backend = IOTAPaymentController ->
     calls_since w after [GetBalance (email current_user)]
     /\ forall balance s',
          sdk_get_balance (email current_user) (sdk w) = (Ok balance, s') ->
          fst (wallet.get_balance current_user w) = Ok balance)
  /\ (backend <> IOTAPaymentController ->
        match sdk_get_account_data (email current_user) (sdk w) with
        | (Ok account, s1) =>
            calls_since w after
              [GetAccountData (email current_user); GetBalance (address account)]
            /\ forall balance s2,
                 sdk_get_balance (address account) s1 = (Ok balance, s2) ->
                 fst (wallet.get_balance current_user w) = Ok balance
        | (Raise _, _) =>
            calls_since w after [GetAccountData (email current_user)]
        end).
Proof.
  cbv zeta. split; intros Hb.
  - rewrite (get_balance_iota _ _ Hb). cbn [fst snd].
    rewrite get_balance_run. unfold calls_since. cbn [snd sdk_calls]. split.
    + reflexivity.
    + intros balance s' Hs. rewrite Hs. reflexivity.
  - rewrite (get_balance_other _ _ Hb). rewrite get_account_data_run.
    destruct (sdk_get_account_data (email current_user) (sdk w)) as [[account | e] s1];
      cbn [fst snd]; unfold calls_since.
    + rewrite get_balance_run. cbn [fst snd sdk sdk_calls]. split.
      * apply append_calls.
      * intros balance s2 Hs. rewrite Hs. reflexivity.
    + reflexivity.
Qed.

(** [GET /wallet/address], step by step. *)
Lemma get_wallet_address_run (user : User) (w : world U S) :
  fst (wallet.get_wallet_address user w)
  = match fst (sdk_get_account_data (email user) (sdk w)) with
    | Ok account => Ok account
    | Raise e => reparsed e
    end.
Proof.
  unfold wallet.get_wallet_address.
  destruct (fst (sdk_get_account_data (email user) (sdk w))) as [account | e] eqn:E.
  - unfold try_except. rewrite get_account_data_run, E. reflexivity.
  - erewrite literal_handler_run; [reflexivity |].
    rewrite get_account_data_run, E. reflexivity.
Qed.

(** [GET /wallet/request_funds] on the Ethereum backend: the rejection is
    raised inside the [try] block, so the handler of that block gets it. *)
Lemma get_request_funds_ethereum (user : User) (w : world U S) :
  backend = EthereumSmartContract ->
  wallet.get_request_funds user w = (reparsed faucet_rejection, w).
Proof.
  intros Hb. unfold wallet.get_request_funds, isinstance. rewrite Hb.
  unfold bind at 1.
  erewrite literal_handler_run with (e := faucet_rejection) (w' := w).
  - unfold reparsed. destruct (literal_eval (str faucet_rejection)); reflexivity.
  - reflexivity.
Qed.

(** [GET /wallet/request_funds] on the other backends, step by step. *)
Lemma get_request_funds_other (user : User) (w : world U S) :
  backend <> EthereumSmartContract ->
  fst (wallet.get_request_funds user w)
  = match sdk_get_account_data (email user) (sdk w) with
    | (Ok account, s1) =>
        match fst (sdk_request_funds (address account) s1) with
        | Ok response => Ok (Response response 200)
        | Raise e => reparsed e
        end
    | (Raise e, _) => reparsed e
    end.
Proof.
  intros Hb. unfold wallet.get_request_funds, isinstance.
  destruct backend; try congruence.
  all: unfold bind at 1.
  all: destruct (sdk_get_account_data (email user) (sdk w)) as [[account | e] s1] eqn:E.
  all: try (erewrite literal_handler_run with (e := e);
            [ unfold reparsed; destruct (literal_eval (str e)); reflexivity
            | run; rewrite get_account_data_run, E; reflexivity ]).
  all: destruct (fst (sdk_request_funds (address account) s1)) as [response | e] eqn:E2.
  all: try (unfold try_except, bind, ret; rewrite get_account_data_run, E;
            cbn [fst snd]; rewrite request_funds_run; cbn [fst snd sdk];
            rewrite E2; reflexivity).
  all: erewrite literal_handler_run with (e := e);
    [ unfold reparsed; destruct (literal_eval (str e)); reflexivity
    | unfold bind, ret; rewrite get_account_data_run, E; cbn [fst snd];
      rewrite request_funds_run; cbn [fst snd sdk]; rewrite E2; reflexivity ].
Qed.

Lemma reparsed_literal {A : Type} (e : exn) (error_dict : pyval) :
  literal_eval (str e) = Some error_dict ->
  reparsed (A := A) e = Raise (HTTPException 400 error_dict).
Proof. intros E. unfold reparsed. rewrite E. reflexivity. Qed.

Lemma reparsed_malformed {A : Type} (e : exn) :
  literal_eval (str e) = None ->
  reparsed (A := A) e = Raise (MalformedLiteral (str e)).
Proof. intros E. unfold reparsed. rewrite E. reflexivity. Qed.

(** C2: on the Ethereum backend [/wallet/request_funds] never reaches the
    SDK, but its answer is not the 400 it raises: the rejection is caught by
    the route's own handler, which fails to re-parse
    ["400: Faucet not available for Ethereum"], and the route ends with the
    parser's exception, a 500. *)
Theorem request_funds_ethereum_not_400 (user : User) (w : world U S) :
  backend = EthereumSmartContract ->
  literal_eval "400: Faucet not available for Ethereum" = None ->
  wallet.get_request_funds user w
  = (Raise (MalformedLiteral "400: Faucet not available for Ethereum"), w)
  /\ http_status (fst (wallet.get_request_funds user w)) = 500
  /\ calls_since w (snd (wallet.get_request_funds user w)) [].
Proof.
  intros Hb Hlit. rewrite (get_request_funds_ethereum _ _ Hb).
  rewrite reparsed_malformed; rewrite str_faucet_rejection; [| exact Hlit].
  cbn [fst snd http_status]. unfold calls_since. rewrite app_nil_r. auto.
Qed.

(** C10: when the [try] block of [/wallet/address], of [/wallet/balance]
    (for an exception that is no [WalletException]) or of
    [/wallet/request_funds] raises [e], the route answers with the re-parsed
    string form of [e]: a 400 with the parsed literal when [str e] is a
    literal, and otherwise the exception of the parser itself, which is no
    400.  The rejection raised on the Ethereum backend goes the same way. *)
Theorem literal_handler_partial (user : User) (w : world U S) :
  (forall e s', sdk_get_account_data (email user) (sdk w) = (Raise e, s') ->
     fst (wallet.get_wallet_address user w) = reparsed e)
  /\ (forall e s', backend = IOTAPaymentController ->
        sdk_get_balance (email user) (sdk w) = (Raise e, s') ->
        is_wallet_exception e = false ->
        fst (wallet.get_balance user w) = reparsed e)
  /\ (forall e s', backend <> IOTAPaymentController ->
        sdk_get_account_data (email user) (sdk w) = (Raise e, s') ->
        is_wallet_exception e = false ->
        fst (wallet.get_balance user w) = reparsed e)
  /\ (forall account s1 e s2, backend <> IOTAPaymentController ->
        sdk_get_account_data (email user) (sdk w) = (Ok account, s1) ->
        sdk_get_balance (address account) s1 = (Raise e, s2) ->
        is_wallet_exception e = false ->
        fst (wallet.get_balance user w) = reparsed e)
  /\ (backend = EthereumSmartContract ->
        fst (wallet.get_request_funds user w) = reparsed faucet_rejection)
  /\ (forall e s', backend <> EthereumSmartContract ->
        sdk_get_account_data (email user) (sdk w) = (Raise e, s') ->
        fst (wallet.get_request_funds user w) = reparsed e)
  /\ (forall account s1 e s2, backend <> EthereumSmartContract ->
        sdk_get_account_data (email user) (sdk w) = (Ok account, s1) ->
        sdk_request_funds (address account) s1 = (Raise e, s2) ->
        fst (wallet.get_request_funds user w) = reparsed e)
  /\ (forall (A : Type) e error_dict, literal_eval (str e) = Some error_dict ->
        reparsed (A := A) e = Raise (HTTPException 400 error_dict))
  /\ (forall (A : Type) e, literal_eval (str e) = None ->
        reparsed (A := A) e = Raise (MalformedLiteral (str e))
        /\ forall status_code detail,
             reparsed (A := A) e <> Raise (HTTPException status_code detail))
  /\ (backend = EthereumSmartContract ->
      literal_eval "400: Faucet not available for Ethereum" = None ->
      fst (wallet.get_request_funds user w)
      = Raise (MalformedLiteral "400: Faucet not available for Ethereum")).
Proof.
  repeat split.
  - intros e s' E. rewrite get_wallet_address_run, E. reflexivity.
  - intros e s' Hb E Hw. rewrite (get_balance_iota _ _ Hb). cbn [fst].
    rewrite E. cbn [fst]. unfold balance_error. rewrite Hw. reflexivity.
  - intros e s' Hb E Hw. rewrite (get_balance_other _ _ Hb).
    rewrite get_account_data_run, E. cbn [fst].
    unfold balance_error. rewrite Hw. reflexivity.
  - intros account s1 e s2 Hb E1 E2 Hw. rewrite (get_balance_other _ _ Hb).
    rewrite get_account_data_run, E1. cbn [fst snd sdk]. rewrite E2. cbn [fst].
    unfold balance_error. rewrite Hw. reflexivity.
  - intros Hb. rewrite (get_request_funds_ethereum _ _ Hb). reflexivity.
  - intros e s' Hb E. rewrite (get_request_funds_other _ _ Hb), E. reflexivity.
  - intros account s1 e s2 Hb E1 E2.
    rewrite (get_request_funds_other _ _ Hb), E1, E2. reflexivity.
  - intros A e error_dict E. apply reparsed_literal, E.
  - apply reparsed_malformed; assumption.
  - intros status_code detail. rewrite reparsed_malformed by assumption. discriminate.
  - intros Hb Hlit. rewrite (get_request_funds_ethereum _ _ Hb). cbn [fst].
    rewrite reparsed_malformed; rewrite str_faucet_rejection; [reflexivity | exact Hlit].
Qed.
End WalletProperties.

Section UserProperties.
Context {U S : Type} {PY : PyRuntime} {RC : RequestContext U} {PP : PaymentProcessor S}
        {CC : CryptContext} {TS : TokenSettings}.


Lemma query_user_first_app (email' : string) (rows : list User) (password_hash' : string) :
  query_user_first email' (rows ++ [mkUser email' password_hash']) <> None.
Proof.
  unfold query_user_first. induction rows as [| u rows IH]; cbn [app find email].
  - rewrite String.eqb_refl. discriminate.
  - destruct (String.eqb (email u) email'); [discriminate | exact IH].
Qed.



(** The local authentication, step by step. *)
Lemma authenticate_user_run (email' password : string) (w : world U S) :
  authenticate_user email' password w
  = (Ok match query_user_first email' (users w) with
        | Some user => if pwd_verify password (password_hash user) then Some user else None
        | None => None
        end, w).
Proof.
  unfold authenticate_user. run.
  destruct (query_user_first email' (users w)) as [user |]; [| reflexivity].
  destruct (pwd_verify password (password_hash user)); reflexivity.
Qed.

(** [/user/login] once the market server has answered. *)
Lemma login_run (credentials : UserLoginSchema) (w : world U S)
    (response : UpstreamResponse) (u' : U) :
  make_request "/token" "post" (login_model_dump credentials) (upstream w) = (Ok response, u') ->
  user.login credentials w
  = (let w1 := mkWorld (users w) (tokens w) (background_tasks w) (sdk_calls w)
                       (now w) u' (sdk w) in
     match fst (authenticate_user (login_email credentials)
                                  (login_password credentials) w1) with
     | Ok (Some user) =>
         (access_token <- create_access_token (email user) ;;
          refresh_token <- create_refresh_token (email user) ;;
          if upstream_status response =? HTTP_200_OK then
            access <- getitem (json response) "access" ;;
            add_token (email user) access ;;
            add_task (cleanup_expired_tokens_task (email user)) ;;
            ret (JSONResponse (token_pair access_token refresh_token) 200)
          else
            raise (HTTPException (upstream_status response) (PStr "Failed to login"))) w1
     | _ => (Raise (HTTPException 400 (PStr "Incorrect username or password")), w1)
     end).
Proof.
  intros Hup. unfold user.login. unfold bind at 1. unfold on_upstream. rewrite Hup.
  cbv zeta. unfold bind at 1. rewrite authenticate_user_run. cbn [fst users].
  destruct (query_user_first (login_email credentials) (users w)) as [user |];
    [| reflexivity].
  destruct (pwd_verify (login_password credentials) (password_hash user)); reflexivity.
Qed.

Hypothesis verify_sign : forall payload, verify_signature (sign payload) = Some payload.

(** C3, as the code has it: when the market server answers a login with a
    status other than 200 and the local authentication succeeds, the route
    raises an HTTP error with the upstream status and the fixed detail
    ["Failed to login"]; the upstream body is not part of it. *)
Theorem login_upstream_failure (credentials : UserLoginSchema) (w : world U S)
    (response : UpstreamResponse) (u' : U) (user : User) :
  make_request "/token" "post" (login_model_dump credentials) (upstream w) = (Ok response, u') ->
  upstream_status response <> HTTP_200_OK ->
  local_match credentials (users w) user ->
  fst (user.login credentials w)
  = Raise (HTTPException (upstream_status response) (PStr "Failed to login"))
  /\ http_status (fst (user.login credentials w)) = upstream_status response.
Proof.
  intros Hup Hst [Hq Hv]. rewrite (login_run _ _ _ _ Hup). cbv zeta.
  rewrite authenticate_user_run. cbn [fst users]. rewrite Hq, Hv.
  apply Z.eqb_neq in Hst. unfold create_access_token, create_refresh_token. run.
  rewrite Hst. cbn [fst http_status]. auto.
Qed.

(** C4, as the code has it: when the supplied password does not match the
    stored hash for that email, or no row has that email, the login answers
    400 whatever response the market server gave to the call, accepting or
    not; and in no case, not even when the call itself raises, does the
    login succeed. *)
Theorem login_local_mismatch_400 (credentials : UserLoginSchema) (w : world U S) :
  local_mismatch credentials (users w) ->
  (forall response u',
     make_request "/token" "post" (login_model_dump credentials) (upstream w)
     = (Ok response, u') ->
     fst (user.login credentials w)
     = Raise (HTTPException 400 (PStr "Incorrect username or password"))
     /\ http_status (fst (user.login credentials w)) = 400)
  /\ (forall r, fst (user.login credentials w) <> Ok r).
Proof.
  intros Hm.
  assert (Hauth : forall w1 : world U S, users w1 = users w ->
            fst (authenticate_user (login_email credentials)
                                   (login_password credentials) w1) = Ok None).
  { intros w1 Hu. rewrite authenticate_user_run, Hu. cbn [fst].
    destruct Hm as [Hq | [user [Hq Hv]]]; rewrite Hq; [| rewrite Hv]; reflexivity. }
  assert (H400 : forall response u',
            make_request "/token" "post" (login_model_dump credentials) (upstream w)
            = (Ok response, u') ->
            fst (user.login credentials w)
            = Raise (HTTPException 400 (PStr "Incorrect username or password"))).
  { intros response u' Hup. rewrite (login_run _ _ _ _ Hup). cbv zeta.
    rewrite Hauth by reflexivity. reflexivity. }
  split.
  - intros response u' Hup. rewrite (H400 _ _ Hup). cbn [http_status]. auto.
  - intros r.
    destruct (make_request "/token" "post" (login_model_dump credentials) (upstream w))
      as [[response | e] u'] eqn:Hup.
    + rewrite (H400 _ _ eq_refl). discriminate.
    + unfold user.login. unfold bind at 1. unfold on_upstream. rewrite Hup.
      cbn [fst]. discriminate.
Qed.


(** [/user/refresh], step by step. *)
Lemma post_refresh_token_run (refresh_token : string) (w : world U S) :
  user.post_refresh_token refresh_token w
  = (match verify_signature refresh_token with
     | Some payload =>
         if exp payload <=? now w then Raise (HTTPException 401 (PStr "Invalid token"))
         else match query_user_first (sub payload) (users w) with
              | Some _ =>
                  Ok (Returned (token_pair
                        (sign (mkClaims (sub payload) (now w + ACCESS_TOKEN_EXPIRE)))
                        (sign (mkClaims (sub payload) (now w + REFRESH_TOKEN_EXPIRE)))))
              | None => Raise (HTTPException 401 (PStr "Invalid token"))
              end
     | None => Raise (HTTPException 401 (PStr "Invalid token"))
     end, w).
Proof.
  unfold user.post_refresh_token, get_payload_from_refresh_token,
    create_access_token, create_refresh_token. run.
  destruct (verify_signature refresh_token) as [payload |]; [| reflexivity].
  destruct (exp payload <=? now w); [reflexivity |]. run.
  destruct (query_user_first (sub payload) (users w)); reflexivity.
Qed.

(** C8: a refresh token issued for an email that has a user row, handed
    unchanged to [/user/refresh] before its expiry, gives back, with the
    store left as it was, the access and the refresh token that are issued
    for that same email at the time of the refresh, and each of them
    resolves to that email; a token whose signature does not check, or whose
    expiry has passed, gives 401 and no token. *)
Theorem refresh_flow :
  (forall (email' : string) (w0 w : world U S) (refresh_token : string),
     fst (create_refresh_token email' w0) = Ok refresh_token ->
     query_user_first email' (users w) <> None ->
     now w < now w0 + REFRESH_TOKEN_EXPIRE ->
     let new_access_token := sign (mkClaims email' (now w + ACCESS_TOKEN_EXPIRE)) in
     let new_refresh_token := sign (mkClaims email' (now w + REFRESH_TOKEN_EXPIRE)) in
     user.post_refresh_token refresh_token w
     = (Ok (Returned (PDict [(PStr "access_token", PStr new_access_token);
                             (PStr "refresh_token", PStr new_refresh_token);
                             (PStr "token_type", PStr "bearer")])), w)
     /\ fst (create_access_token email' w) = Ok new_access_token
     /\ fst (create_refresh_token email' w) = Ok new_refresh_token
     /\ verify_signature new_access_token
        = Some (mkClaims email' (now w + ACCESS_TOKEN_EXPIRE))
     /\ verify_signature new_refresh_token
        = Some (mkClaims email' (now w + REFRESH_TOKEN_EXPIRE)))
  /\ (forall (refresh_token : string) (w : world U S),
        invalid_refresh_token refresh_token (now w) ->
        user.post_refresh_token refresh_token w
        = (Raise (HTTPException 401 (PStr "Invalid token")), w)
        /\ http_status (fst (user.post_refresh_token refresh_token w)) = 401).
Proof.
  split.
  - intros email' w0 w refresh_token Hissued Hrow Hfresh. cbv zeta.
    unfold create_refresh_token in Hissued. run.
    injection Hissued as <-.
    rewrite post_refresh_token_run, !verify_sign. cbn [sub exp].
    assert (Hle : (now w0 + REFRESH_TOKEN_EXPIRE <=? now w) = false)
      by (apply Z.leb_gt; exact Hfresh).
    rewrite Hle.
    destruct (query_user_first email' (users w)); [| congruence].
    unfold create_access_token, create_refresh_token. run.
    repeat split; reflexivity.
  - intros refresh_token w Hinv. rewrite post_refresh_token_run. cbn [fst].
    destruct Hinv as [Hv | [payload [Hv Hexp]]]; rewrite Hv.
    + split; reflexivity.
    + apply Z.leb_le in Hexp. rewrite Hexp. split; reflexivity.
Qed.

(** C9: a refresh token that is correctly signed and not expired, but whose
    subject has no user row, gives 401 with detail ["Invalid token"]; no
    token is issued and nothing changes. *)
Theorem refresh_unknown_subject (refresh_token : string) (payload : claims)
    (w : world U S) :
  verify_signature refresh_token = Some payload ->
  now w < exp payload ->
  query_user_first (sub payload) (users w) = None ->
  user.post_refresh_token refresh_token w
  = (Raise (HTTPException 401 (PStr "Invalid token")), w)
  /\ http_status (fst (user.post_refresh_token refresh_token w)) = 401.
Proof.
  intros Hv Hexp Hrow. rewrite post_refresh_token_run, Hv, Hrow.
  apply Z.leb_gt in Hexp. rewrite Hexp. cbn [fst http_status]. auto.
Qed.

Lemma create_account_run (identifier' : string) (w : world U S) :
  payment_processor.create_account identifier' w
  = (fst (sdk_create_account identifier' (sdk w)),
     mkWorld (users w) (tokens w) (background_tasks w)
             (sdk_calls w ++ [CreateAccount identifier']) (now w) (upstream w)
             (snd (sdk_create_account identifier' (sdk w)))).
Proof.
  unfold payment_processor.create_account. run.
  destruct (sdk_create_account identifier' (sdk w)); reflexivity.
Qed.

(** [/user/register] once the market server has answered 201 or 409. *)
Lemma register_user_run (credentials : UserRegistrationSchema) (w : world U S)
    (response : UpstreamResponse) (u' : U) :
  make_request "/user/register/" "post" (reg_model_dump credentials) (upstream w)
  = (Ok response, u') ->
  upstream_status response = HTTP_201_CREATED
  \/ upstream_status response = HTTP_409_CONFLICT ->
  user.register_user credentials w
  = (Ok (JSONResponse
           match fst (registered credentials u' w) with
           | Ok _ => json response
           | Raise e => error_content (str e)
           end HTTP_201_CREATED),
     snd (registered credentials u' w)).
Proof.
  intros Hup Hst. unfold user.register_user, registered.
  unfold bind at 1. unfold attempt at 1. unfold on_upstream. rewrite Hup.
  assert (Hif : (upstream_status response =? HTTP_201_CREATED)
                || (upstream_status response =? HTTP_409_CONFLICT) = true).
  { destruct Hst as [-> | ->]; reflexivity. }
  rewrite Hif. unfold db_add_user. run.
  destruct (query_user_first (reg_email credentials) (users w)); run;
    rewrite create_account_run; cbn [fst snd users tokens background_tasks sdk_calls
                                     now upstream sdk];
    destruct (fst (sdk_create_account (reg_email credentials) (sdk w))); reflexivity.
Qed.

Lemma registered_row (credentials : UserRegistrationSchema) (u' : U) (w : world U S) :
  query_user_first (reg_email credentials) (users (snd (registered credentials u' w)))
  <> None.
Proof.
  unfold registered. cbn [snd users].
  destruct (query_user_first (reg_email credentials) (users w)) eqn:E.
  - rewrite E. discriminate.
  - apply query_user_first_app.
Qed.

(** C1: when the market server answers a registration with 201 or 409 and
    the creation of the payment account raises, the user row stays in the
    store, but the response is sent with status 201: the 400 the handler
    assigns to [status_code] is not the status the response is built with. *)
Theorem register_payment_failure_answers_201 (credentials : UserRegistrationSchema)
    (w : world U S) (response : UpstreamResponse) (u' : U) (e : exn) (s' : S) :
  make_request "/user/register/" "post" (reg_model_dump credentials) (upstream w)
  = (Ok response, u') ->
  upstream_status response = HTTP_201_CREATED
  \/ upstream_status response = HTTP_409_CONFLICT ->
  sdk_create_account (reg_email credentials) (sdk w) = (Raise e, s') ->
  fst (user.register_user credentials w)
  = Ok (JSONResponse (error_content (str e)) HTTP_201_CREATED)
  /\ http_status (fst (user.register_user credentials w)) = 201
  /\ query_user_first (reg_email credentials)
                      (users (snd (user.register_user credentials w))) <> None.
Proof.
  intros Hup Hst Hsdk. rewrite (register_user_run _ _ _ _ Hup Hst).
  cbn [fst snd http_status]. repeat split.
  - unfold registered. cbn [fst]. rewrite Hsdk. reflexivity.
  - apply registered_row.
Qed.


Hypothesis py_str_string : forall s, py_str (PStr s) = s.

(** [/user/social-login] when the market server answers another status than
    201: the HTTP error is raised inside the [try] block and comes back as a
    500 whose body holds its string form. *)
Lemma social_login_upstream_failure (credentials : pyval) (uuid4_hex : string)
    (w : world U S) (response : UpstreamResponse) (u' : U) :
  make_request "/token/social" "post" credentials (upstream w) = (Ok response, u') ->
  upstream_status response <> HTTP_201_CREATED ->
  fst (user.social_login credentials uuid4_hex w)
  = Ok (JSONResponse
          (error_content (decimal (upstream_status response) ++ ": Failed to login"))
          500).
Proof.
  intros Hup Hst. apply Z.eqb_neq in Hst.
  unfold user.social_login, try_except, bind at 1, on_upstream.
  rewrite Hup, Hst. cbn [negb]. run. unfold str. rewrite py_str_string. reflexivity.
Qed.
End UserProperties.

(** * Properties of the other routes *)

Section SocialLoginProperties.
Context {U S : Type} {PY : PyRuntime} {RC : RequestContext U} {PP : PaymentProcessor S}
        {CC : CryptContext} {TS : TokenSettings}.

Lemma bind_ok {A B : Type} (m : @M U S A) (k : A -> M B) (w w' : world U S) (b : B) :
  bind m k w = (Ok b, w') ->
  exists a w1, m w = (Ok a, w1) /\ k a w1 = (Ok b, w').
Proof.
  unfold bind. destruct (m w) as [[a | e] w1]; intros H.
  - exists a, w1. auto.
  - discriminate.
Qed.

(** [/user/social-login] once the market server has accepted the login. *)
Lemma social_login_run (credentials : pyval) (uuid4_hex : string) (w : world U S)
    (response : UpstreamResponse) (u' : U) (user_email' : string) (access : pyval) :
  make_request "/token/social" "post" credentials (upstream w) = (Ok response, u') ->
  social_answer response user_email' access ->
  user.social_login credentials uuid4_hex w
  = match query_user_first user_email' (users w) with
    | Some _ =>
        (Ok (tokens_for user_email' w), token_cached user_email' access (with_upstream u' w))
    | None =>
        match registered (mkRegistration user_email' uuid4_hex []) u' w with
        | (Ok _, w2) => (Ok (tokens_for user_email' w), token_cached user_email' access w2)
        | (Raise e, w2) => (Ok (JSONResponse (error_content (str e)) 500), w2)
        end
    end.
Proof.
  intros Hup (Hst & items & data & Hjson & Hdata & Hemail & Haccess).
  unfold user.social_login, try_except, bind at 1, on_upstream.
  rewrite Hup, Hst. cbn [Z.eqb negb HTTP_201_CREATED Pos.eqb].
  unfold getitem, user.as_email, db_add_user, add_token, create_access_token,
    create_refresh_token. run.
  rewrite Hjson, Hdata. run. rewrite Hemail. run. rewrite Haccess. run.
  destruct (query_user_first user_email' (users w)) as [row |] eqn:H0; run.
  - reflexivity.
  - rewrite create_account_run. unfold registered.
    cbn [fst snd users tokens background_tasks sdk_calls now upstream sdk
         reg_email reg_password].
    rewrite H0. cbn [users].
    destruct (sdk_create_account user_email' (sdk w)) as [[[] | e] s']; reflexivity.
Qed.

Ltac bind_inv H :=
  repeat match type of H with
         | bind _ _ _ = (Ok _, _) =>
             let a := fresh "a" in
             let w1 := fresh "w" in
             let Hm := fresh "Hm" in
             apply bind_ok in H; destruct H as (a & w1 & Hm & H)
         end.

(** X1: [/user/social-login] never raises: whatever the market server, the store
    and the SDK do, the answer is a JSON response with status 200 or 500. *)
Theorem social_login_never_raises (credentials : pyval) (uuid4_hex : string)
    (w : world U S) :
  exists content status_code,
    fst (user.social_login credentials uuid4_hex w) = Ok (JSONResponse content status_code)
    /\ (status_code = 200 \/ status_code = 500).
Proof.
  unfold user.social_login, try_except.
  match goal with |- context [match ?body w with _ => _ end] =>
    destruct (body w) as [[r | e] w'] eqn:E end.
  - bind_inv E. unfold ret in E. injection E as <- _.
    eexists _, _. split; [reflexivity | left; reflexivity].
  - eexists _, _. split; [reflexivity | right; reflexivity].
Qed.

(** X2: When the market server answers a social login with another status
    than 201, the HTTP error raised for it is caught by the route's own
    handler: the answer is a 500 whose body holds the string form of the
    error, and nothing but the connection state changes. *)
Theorem social_login_hides_upstream_status (credentials : pyval) (uuid4_hex : string)
    (w : world U S) (response : UpstreamResponse) (u' : U) :
  (forall s, py_str (PStr s) = s) ->
  make_request "/token/social" "post" credentials (upstream w) = (Ok response, u') ->
  upstream_status response <> HTTP_201_CREATED ->
  user.social_login credentials uuid4_hex w
  = (Ok (JSONResponse
           (error_content (decimal (upstream_status response) ++ ": Failed to login"))
           500),
     with_upstream u' w).
Proof.
  intros Hstr Hup Hst. apply Z.eqb_neq in Hst.
  unfold user.social_login, try_except, bind at 1, on_upstream.
  rewrite Hup, Hst. cbn [negb]. run. unfold str. rewrite Hstr. reflexivity.
Qed.

(** X3: The first social login of an email without a row: the row is stored with
    the hash of the random password, the payment account is created, the
    upstream token is cached, the cleanup is queued and the answer is a token
    pair for that email. *)
Theorem social_login_provisions_user (credentials : pyval) (uuid4_hex : string)
    (w : world U S) (response : UpstreamResponse) (u' : U) (user_email' : string)
    (access : pyval) (s' : S) :
  make_request "/token/social" "post" credentials (upstream w) = (Ok response, u') ->
  social_answer response user_email' access ->
  query_user_first user_email' (users w) = None ->
  sdk_create_account user_email' (sdk w) = (Ok tt, s') ->
  user.social_login credentials uuid4_hex w
  = (Ok (tokens_for user_email' w),
     mkWorld (users w ++ [mkUser user_email' (pwd_hash uuid4_hex)])
             (tokens w ++ [mkToken user_email' access (now w) (now w + CACHED_TOKEN_EXPIRE)])
             (background_tasks w ++ [cleanup_expired_tokens_task user_email'])
             (sdk_calls w ++ [CreateAccount user_email']) (now w) u' s').
Proof.
  intros Hup Hans Hq Hsdk. rewrite (social_login_run _ _ _ _ _ _ _ Hup Hans), Hq.
  unfold registered. cbn [reg_email reg_password]. rewrite Hq, Hsdk. reflexivity.
Qed.

(** X4: A social login of an email that has a row adds no row and does not call
    the payment gateway; it caches the token and answers a token pair. *)
Theorem social_login_known_user (credentials : pyval) (uuid4_hex : string)
    (w : world U S) (response : UpstreamResponse) (u' : U) (user_email' : string)
    (access : pyval) (row : User) :
  make_request "/token/social" "post" credentials (upstream w) = (Ok response, u') ->
  social_answer response user_email' access ->
  query_user_first user_email' (users w) = Some row ->
  user.social_login credentials uuid4_hex w
  = (Ok (tokens_for user_email' w), token_cached user_email' access (with_upstream u' w)).
Proof.
  intros Hup Hans Hq. rewrite (social_login_run _ _ _ _ _ _ _ Hup Hans), Hq. reflexivity.
Qed.

(** X5: When the creation of the payment account fails at the first social login,
    the answer is a 500 and no token is cached, but the row stays; the next
    social login of that email then succeeds without asking the gateway
    again, so the account is not created. *)
Theorem social_login_account_never_retried (credentials : pyval) (uuid4_hex uuid4_hex' : string)
    (w0 : world U S) (r1 r2 : UpstreamResponse) (u1 u2 : U) (user_email' : string)
    (access1 access2 : pyval) (e : exn) (s' : S) :
  make_request "/token/social" "post" credentials (upstream w0) = (Ok r1, u1) ->
  social_answer r1 user_email' access1 ->
  query_user_first user_email' (users w0) = None ->
  sdk_create_account user_email' (sdk w0) = (Raise e, s') ->
  make_request "/token/social" "post" credentials u1 = (Ok r2, u2) ->
  social_answer r2 user_email' access2 ->
  let first := user.social_login credentials uuid4_hex w0 in
  let second := user.social_login credentials uuid4_hex' (snd first) in
  fst first = Ok (JSONResponse (error_content (str e)) 500)
  /\ users (snd first) = (users w0 ++ [mkUser user_email' (pwd_hash uuid4_hex)])%list
  /\ tokens (snd first) = tokens w0
  /\ fst second = Ok (tokens_for user_email' w0)
  /\ users (snd second) = users (snd first)
  /\ sdk_calls (snd second) = (sdk_calls w0 ++ [CreateAccount user_email'])%list
  /\ sdk (snd second) = s'.
Proof.
  intros Hup1 Hans1 Hq Hsdk Hup2 Hans2. cbv zeta.
  rewrite (social_login_run _ _ _ _ _ _ _ Hup1 Hans1), Hq.
  unfold registered. cbn [reg_email reg_password]. rewrite Hq, Hsdk. cbn [fst snd].
  assert (Hrow : query_user_first user_email'
                   (users w0 ++ [mkUser user_email' (pwd_hash uuid4_hex)]) <> None)
    by apply query_user_first_app.
  destruct (query_user_first user_email'
              (users w0 ++ [mkUser user_email' (pwd_hash uuid4_hex)])) as [row |] eqn:Hq2;
    [| congruence].
  erewrite social_login_run; [| exact Hup2 | exact Hans2].
  cbn [users]. rewrite Hq2. cbn [fst snd].
  repeat split.
Qed.

(** X6: A 201 of the market server whose body has no ["data"] is answered 500
    with the text of the [KeyError]; nothing is stored and the gateway is not
    called. *)
Theorem social_login_missing_data (credentials : pyval) (uuid4_hex : string)
    (w : world U S) (response : UpstreamResponse) (u' : U)
    (items : list (pyval * pyval)) :
  make_request "/token/social" "post" credentials (upstream w) = (Ok response, u') ->
  upstream_status response = HTTP_201_CREATED ->
  json response = PDict items ->
  lookup_key "data" items = None ->
  user.social_login credentials uuid4_hex w
  = (Ok (JSONResponse (error_content "'data'") 500), with_upstream u' w).
Proof.
  intros Hup Hst Hjson Hdata.
  unfold user.social_login, try_except, bind at 1, on_upstream.
  rewrite Hup, Hst. cbn [Z.eqb negb HTTP_201_CREATED Pos.eqb].
  unfold getitem. run. rewrite Hjson, Hdata. reflexivity.
Qed.
End SocialLoginProperties.

Section RegistrationProperties.
Context {U S : Type} {PY : PyRuntime} {RC : RequestContext U} {PP : PaymentProcessor S}
        {CC : CryptContext} {TS : TokenSettings}.

Lemma query_user_first_skip (email' : string) (rows more : list User) :
  query_user_first email' rows = None ->
  query_user_first email' (rows ++ more) = query_user_first email' more.
Proof.
  unfold query_user_first. induction rows as [| u rows IH]; cbn [app find]; intros Hn.
  - reflexivity.
  - destruct (String.eqb (email u) email'); [discriminate | exact (IH Hn)].
Qed.

(** X7: A 200 of the market server whose body has no ["access"] makes the login
    end with the [KeyError], a 500, although the credentials are right on
    both sides; no token is cached and no cleanup is queued. *)
Theorem login_missing_access (credentials : UserLoginSchema) (w : world U S)
    (response : UpstreamResponse) (u' : U) (items : list (pyval * pyval)) (user : User) :
  make_request "/token" "post" (login_model_dump credentials) (upstream w) = (Ok response, u') ->
  upstream_status response = HTTP_200_OK ->
  json response = PDict items ->
  lookup_key "access" items = None ->
  local_match credentials (users w) user ->
  user.login credentials w = (Raise (KeyError "access"), with_upstream u' w)
  /\ http_status (fst (user.login credentials w)) = 500.
Proof.
  intros Hup Hst Hjson Hacc [Hq Hv].
  assert (Hrun : user.login credentials w = (Raise (KeyError "access"), with_upstream u' w)).
  { rewrite (login_run _ _ _ _ Hup). cbv zeta.
    rewrite authenticate_user_run. cbn [fst users]. rewrite Hq, Hv.
    unfold create_access_token, create_refresh_token, getitem. run.
    rewrite Hst, Hjson, Hacc. reflexivity. }
  rewrite Hrun. split; reflexivity.
Qed.

(** X8: When the call to the market server raises, the login lets the exception
    through before it looks at the credentials: a connection failure is a
    500 and the store is as it was. *)
Theorem login_upstream_exception (credentials : UserLoginSchema) (w : world U S)
    (e : exn) (u' : U) :
  make_request "/token" "post" (login_model_dump credentials) (upstream w) = (Raise e, u') ->
  user.login credentials w = (Raise e, with_upstream u' w)
  /\ (forall message, e = ConnectionError message ->
        http_status (fst (user.login credentials w)) = 500)
  /\ store_untouched w (snd (user.login credentials w)).
Proof.
  intros Hup.
  assert (Hrun : user.login credentials w = (Raise e, with_upstream u' w)).
  { unfold user.login. unfold bind at 1. unfold on_upstream. rewrite Hup. reflexivity. }
  rewrite Hrun. split; [reflexivity |]. split.
  - intros message ->. reflexivity.
  - repeat split.
Qed.

(** X9: When the call to the market server raises, the registration answers a
    [ConnectionError] with a 503 that carries its text and lets any other
    exception through; no row is added and the gateway is not called. *)
Theorem register_upstream_exception (credentials : UserRegistrationSchema)
    (w : world U S) (e : exn) (u' : U) :
  make_request "/user/register/" "post" (reg_model_dump credentials) (upstream w)
  = (Raise e, u') ->
  user.register_user credentials w
  = (match e with
     | ConnectionError message => Ok (JSONResponse (error_content message) 503)
     | _ => Raise e
     end, with_upstream u' w)
  /\ store_untouched w (snd (user.register_user credentials w)).
Proof.
  intros Hup.
  assert (Hrun : user.register_user credentials w
                 = (match e with
                    | ConnectionError message => Ok (JSONResponse (error_content message) 503)
                    | _ => Raise e
                    end, with_upstream u' w)).
  { unfold user.register_user. unfold bind at 1. unfold attempt at 1.
    unfold on_upstream. rewrite Hup. destruct e; reflexivity. }
  rewrite Hrun. split; [reflexivity | repeat split].
Qed.

(** X10: A registration that the market server answers with a status other than
    201 and 409 raises an HTTP error with that status and the upstream body
    unchanged; no row is added and the gateway is not called. *)
Theorem register_other_status (credentials : UserRegistrationSchema)
    (w : world U S) (response : UpstreamResponse) (u' : U) :
  make_request "/user/register/" "post" (reg_model_dump credentials) (upstream w)
  = (Ok response, u') ->
  upstream_status response <> HTTP_201_CREATED ->
  upstream_status response <> HTTP_409_CONFLICT ->
  user.register_user credentials w
  = (Raise (HTTPException (upstream_status response) (json response)), with_upstream u' w)
  /\ passes_through response (fst (user.register_user credentials w))
  /\ store_untouched w (snd (user.register_user credentials w)).
Proof.
  intros Hup H201 H409.
  assert (Hrun : user.register_user credentials w
                 = (Raise (HTTPException (upstream_status response) (json response)),
                    with_upstream u' w)).
  { unfold user.register_user. unfold bind at 1. unfold attempt at 1.
    unfold on_upstream. rewrite Hup.
    apply Z.eqb_neq in H201, H409. rewrite H201, H409. reflexivity. }
  rewrite Hrun. split; [reflexivity |]. split; [left; reflexivity | repeat split].
Qed.

(** X11: A registration that the market server answers with 201 or with 409 is
    answered 201 whatever the payment gateway does, so an upstream conflict
    is reported as created; when the gateway creates the account the body is
    the upstream body. *)
Theorem register_conflict_answers_201 (credentials : UserRegistrationSchema)
    (w : world U S) (response : UpstreamResponse) (u' : U) :
  make_request "/user/register/" "post" (reg_model_dump credentials) (upstream w)
  = (Ok response, u') ->
  upstream_status response = HTTP_201_CREATED
  \/ upstream_status response = HTTP_409_CONFLICT ->
  http_status (fst (user.register_user credentials w)) = 201
  /\ (forall s', sdk_create_account (reg_email credentials) (sdk w) = (Ok tt, s') ->
        fst (user.register_user credentials w)
        = Ok (JSONResponse (json response) HTTP_201_CREATED)).
Proof.
  intros Hup Hst. rewrite (register_user_run _ _ _ _ Hup Hst). cbn [fst http_status].
  split; [reflexivity |].
  intros s' Hsdk. unfold registered. cbn [fst]. rewrite Hsdk. reflexivity.
Qed.

(** X12: Registration and login compose: after a registration of a new email that
    the market server answered 201 or 409, a login with the same email and
    password that the market server accepts is answered with a token pair,
    provided the password context verifies a password against its own hash.
    This holds whether or not the payment account could be created. *)
Theorem register_then_login (credentials : UserRegistrationSchema) (w0 : world U S)
    (r1 r2 : UpstreamResponse) (u1 u2 : U) (items : list (pyval * pyval))
    (access : pyval) :
  let same_credentials := mkLogin (reg_email credentials) (reg_password credentials) in
  pwd_verify (reg_password credentials) (pwd_hash (reg_password credentials)) = true ->
  query_user_first (reg_email credentials) (users w0) = None ->
  make_request "/user/register/" "post" (reg_model_dump credentials) (upstream w0)
  = (Ok r1, u1) ->
  upstream_status r1 = HTTP_201_CREATED \/ upstream_status r1 = HTTP_409_CONFLICT ->
  make_request "/token" "post" (login_model_dump same_credentials) u1 = (Ok r2, u2) ->
  upstream_status r2 = HTTP_200_OK ->
  json r2 = PDict items ->
  lookup_key "access" items = Some access ->
  fst (user.login same_credentials (snd (user.register_user credentials w0)))
  = Ok (tokens_for (reg_email credentials) w0).
Proof.
  cbv zeta. intros Hpwd Hnone Hup1 Hst1 Hup2 Hst2 Hjson Hacc.
  rewrite (register_user_run _ _ _ _ Hup1 Hst1). cbn [snd].
  assert (Hup2' :
    make_request "/token" "post"
      (login_model_dump (mkLogin (reg_email credentials) (reg_password credentials)))
      (upstream (snd (registered credentials u1 w0))) = (Ok r2, u2)) by exact Hup2.
  rewrite (login_run _ _ _ _ Hup2'). cbv zeta.
  rewrite authenticate_user_run.
  unfold registered. cbn [fst snd users login_email login_password]. rewrite Hnone.
  assert (Hq : query_user_first (reg_email credentials)
                 (users w0 ++ [mkUser (reg_email credentials)
                                      (pwd_hash (reg_password credentials))])
               = Some (mkUser (reg_email credentials) (pwd_hash (reg_password credentials)))).
  { rewrite (query_user_first_skip _ _ _ Hnone). unfold query_user_first.
    cbn [find email]. rewrite String.eqb_refl. reflexivity. }
  rewrite Hq. cbn [password_hash]. rewrite Hpwd.
  unfold create_access_token, create_refresh_token, add_token, getitem, tokens_for. run.
  rewrite Hst2, Hjson, Hacc. reflexivity.
Qed.

(** X13: A registration of an email that already has a row leaves the stored hash
    as it was: the password given at the second registration does not become
    the local password, and a login with it is answered 400 unless it matches
    the old hash. *)
Theorem register_keeps_stored_hash (credentials : UserRegistrationSchema)
    (w0 : world U S) (row : User) (r1 r2 : UpstreamResponse) (u1 u2 : U) :
  let same_credentials := mkLogin (reg_email credentials) (reg_password credentials) in
  query_user_first (reg_email credentials) (users w0) = Some row ->
  make_request "/user/register/" "post" (reg_model_dump credentials) (upstream w0)
  = (Ok r1, u1) ->
  upstream_status r1 = HTTP_201_CREATED \/ upstream_status r1 = HTTP_409_CONFLICT ->
  users (snd (user.register_user credentials w0)) = users w0
  /\ (pwd_verify (reg_password credentials) (password_hash row) = false ->
      make_request "/token" "post" (login_model_dump same_credentials) u1 = (Ok r2, u2) ->
      fst (user.login same_credentials (snd (user.register_user credentials w0)))
      = Raise (HTTPException 400 (PStr "Incorrect username or password"))).
Proof.
  cbv zeta. intros Hq Hup1 Hst1.
  rewrite (register_user_run _ _ _ _ Hup1 Hst1). cbn [snd].
  assert (Husers : users (snd (registered credentials u1 w0)) = users w0).
  { unfold registered. cbn [snd users]. rewrite Hq. reflexivity. }
  split; [exact Husers |].
  intros Hpwd Hup2.
  assert (Hup2' :
    make_request "/token" "post"
      (login_model_dump (mkLogin (reg_email credentials) (reg_password credentials)))
      (upstream (snd (registered credentials u1 w0))) = (Ok r2, u2)) by exact Hup2.
  rewrite (login_run _ _ _ _ Hup2'). cbv zeta.
  rewrite authenticate_user_run. cbn [fst users login_email login_password].
  rewrite Husers, Hq, Hpwd. reflexivity.
Qed.
End RegistrationProperties.

Section LedgerProperties.
Context {U S : Type} {PY : PyRuntime} {BI : Builtins} {PP : PaymentProcessor S}
        {PL : PaymentLedger S}.

Lemma str_handler_run {A : Type} (m : @M U S A) (w : world U S) :
  try_except m (fun e => raise (HTTPException 400 (PStr (str e)))) w
  = (as_bad_request (fst (m w)), snd (m w)).
Proof.
  unfold try_except, as_bad_request, raise.
  destruct (m w) as [[a | e] w']; reflexivity.
Qed.

Lemma as_bad_request_raise {A : Type} (r : result A) (e : exn) :
  as_bad_request r = Raise e ->
  exists cause, r = Raise cause /\ e = HTTPException 400 (PStr (str cause)).
Proof.
  destruct r as [a | cause]; cbn [as_bad_request]; intros H.
  - discriminate.
  - injection H as <-. exists cause. auto.
Qed.

Lemma literal_handler_world {A : Type} (m : @M U S A) (w : world U S) :
  snd (try_except m (fun e => error_dict <- ast_literal_eval (str e) ;;
                              raise (HTTPException 400 error_dict)) w)
  = snd (m w).
Proof.
  destruct (m w) as [[a | e] w'] eqn:E.
  - unfold try_except. rewrite E. reflexivity.
  - rewrite (literal_handler_run _ _ _ _ E). reflexivity.
Qed.

Ltac raises_elim :=
  intros;
  repeat match goal with
         | H : exists _, _ |- _ => destruct H
         | H : _ /\ _ |- _ => destruct H
         | H : _ \/ _ |- _ => destruct H
         end;
  subst; congruence.

Ltac raises_pick :=
  first [ solve [ repeat first [ split | eexists ];
                  first [ eassumption | reflexivity | discriminate ] ]
        | left; raises_pick
        | right; raises_pick ].

Ltac raises_intro c :=
  let H := fresh "H" in
  intros H; injection H as <-; exists c; split; [raises_pick | reflexivity].

(** X14: [/wallet/transactions] and [/wallet/transfer] end with an exception
    exactly when a call of their [try] block raises, and the exception they
    end with is then the 400 whose detail is the string form of the
    exception that call raised: no other exception leaves them. *)
Theorem ledger_failures_are_400 (user : User) (payload : TransferSchema)
    (w : world U S) (e : exn) :
  (fst (wallet.get_transactions user w) = Raise e <->
     exists cause, transactions_block_raises user w cause
                   /\ e = HTTPException 400 (PStr (str cause)))
  /\ (fst (wallet.post_transfer_funds payload user w) = Raise e <->
        exists cause, transfer_block_raises payload user w cause
                      /\ e = HTTPException 400 (PStr (str cause))).
Proof.
  split.
  - unfold wallet.get_transactions, transactions_block_raises.
    rewrite str_handler_run. cbn [fst]. unfold bind. rewrite get_account_data_run.
    destruct (sdk_get_account_data (email user) (sdk w)) as [[account | c] s1] eqn:Ha;
      cbn [fst snd].
    + unfold payment_processor.get_transaction_history, on_sdk. cbn [sdk].
      destruct (sdk_get_transaction_history (address account) s1) as [[h | c] s2] eqn:Hh;
        cbn [fst as_bad_request]; split; try discriminate.
      * raises_elim.
      * raises_intro c.
      * raises_elim.
    + cbn [as_bad_request]. split; [raises_intro c | raises_elim].
  - unfold wallet.post_transfer_funds, transfer_block_raises.
    rewrite str_handler_run. cbn [fst]. unfold isinstance.
    destruct backend eqn:Hb.
    2: { unfold bind, lift, ret.
         destruct (py_int (transfer_amount payload)) as [amount | c] eqn:Hint;
           cbn [fst snd as_bad_request].
         - unfold payment_processor.execute_transaction, on_sdk.
           cbn [transfer_identifier transfer_amount].
           destruct (sdk_execute_transaction (email user) (transfer_identifier payload)
                       (PInt amount) (sdk w)) as [[v | c] s2] eqn:Hx;
             cbn [fst as_bad_request]; split; try discriminate.
           + raises_elim.
           + raises_intro c.
           + raises_elim.
         - split; [raises_intro c | raises_elim]. }
    all: unfold bind, ret; rewrite get_account_data_run.
    all: destruct (sdk_get_account_data (email user) (sdk w)) as [[account | c] s1] eqn:Ha;
      cbn [fst snd as_bad_request].
    all: try (split; [raises_intro c | raises_elim]).
    all: unfold payment_processor.execute_transaction, on_sdk; cbn [sdk].
    all: destruct (sdk_execute_transaction (address account) (transfer_identifier payload)
                     (transfer_amount payload) s1) as [[v | c] s2] eqn:Hx;
      cbn [fst as_bad_request]; split; try discriminate.
    all: first [raises_intro c | raises_elim].
Qed.

(** X15: [/wallet/transactions] asks for the history of the address that the
    account data of the user's email resolve to; when the resolution fails
    the history is not asked for. *)
Theorem transactions_by_address (user : User) (w : world U S) :
  match sdk_get_account_data (email user) (sdk w) with
  | (Ok account, s1) =>
      fst (wallet.get_transactions user w)
      = as_bad_request (fst (sdk_get_transaction_history (address account) s1))
      /\ sdk (snd (wallet.get_transactions user w))
         = snd (sdk_get_transaction_history (address account) s1)
  | (Raise e, s1) =>
      fst (wallet.get_transactions user w) = Raise (HTTPException 400 (PStr (str e)))
      /\ sdk (snd (wallet.get_transactions user w)) = s1
  end.
Proof.
  unfold wallet.get_transactions. rewrite str_handler_run.
  unfold bind. rewrite get_account_data_run.
  destruct (sdk_get_account_data (email user) (sdk w)) as [[account | e] s1]; cbn [fst snd].
  - unfold payment_processor.get_transaction_history, on_sdk. cbn [sdk].
    destruct (sdk_get_transaction_history (address account) s1) as [r s2].
    cbn [fst snd sdk]. auto.
  - auto.
Qed.

(** X16: [/wallet/transfer]: on the IOTA backend the sender is the user's email,
    the amount is passed through [int] and no account data are asked for,
    and an amount that [int] rejects is a 400 before the SDK is reached; on
    any other backend the sender is the address the account data resolve to
    and the amount is passed as it came. *)
Theorem transfer_call_pattern (payload : TransferSchema) (current_user : User)
    (w : world U S) :
  let answer := wallet.post_transfer_funds payload current_user w in
  (backend = IOTAPaymentController ->
     match py_int (transfer_amount payload) with
     | Ok amount =>
         fst answer
         = as_bad_request
             (fst (sdk_execute_transaction (email current_user)
                     (transfer_identifier payload) (PInt amount) (sdk w)))
         /\ calls_since w (snd answer) []
     | Raise e =>
         answer = (Raise (HTTPException 400 (PStr (str e))), w)
     end)
  /\ (backend <> IOTAPaymentController ->
        match sdk_get_account_data (email current_user) (sdk w) with
        | (Ok account, s1) =>
            fst answer
            = as_bad_request
                (fst (sdk_execute_transaction (address account)
                        (transfer_identifier payload) (transfer_amount payload) s1))
            /\ calls_since w (snd answer) [GetAccountData (email current_user)]
        | (Raise e, _) =>
            fst answer = Raise (HTTPException 400 (PStr (str e)))
        end).
Proof.
  cbv zeta. unfold wallet.post_transfer_funds. rewrite str_handler_run.
  unfold isinstance, calls_since. split; intros Hb.
  - rewrite Hb. unfold bind, lift, ret.
    destruct (py_int (transfer_amount payload)) as [amount | e]; cbn [fst snd].
    + unfold payment_processor.execute_transaction, on_sdk.
      cbn [transfer_identifier transfer_amount].
      destruct (sdk_execute_transaction _ _ _ (sdk w)) as [r s2].
      cbn [fst snd sdk_calls]. rewrite app_nil_r. auto.
    + reflexivity.
  - destruct backend; try congruence.
    all: unfold bind, ret; rewrite get_account_data_run.
    all: destruct (sdk_get_account_data (email current_user) (sdk w))
           as [[account | e] s1]; cbn [fst snd]; [| reflexivity].
    all: unfold payment_processor.execute_transaction, on_sdk; cbn [sdk sdk_calls].
    all: destruct (sdk_execute_transaction _ _ _ s1) as [r s2]; cbn [fst snd sdk_calls].
    all: auto.
Qed.

(** X17: [/wallet/request_funds] on a backend other than Ethereum asks the faucet
    for the address the account data of the user's email resolve to and
    answers 200 with what the faucet returned; when the resolution fails the
    faucet is not asked. *)
Theorem faucet_call_pattern (user : User) (w : world U S) :
  backend <> EthereumSmartContract ->
  let after := snd (wallet.get_request_funds user w) in
  match sdk_get_account_data (email user) (sdk w) with
  | (Ok account, s1) =>
      calls_since w after [GetAccountData (email user); RequestFunds (address account)]
      /\ forall content s2,
           sdk_request_funds (address account) s1 = (Ok content, s2) ->
           fst (wallet.get_request_funds user w) = Ok (Response content 200)
  | (Raise _, _) => calls_since w after [GetAccountData (email user)]
  end.
Proof.
  intros Hb. cbv zeta. unfold calls_since.
  assert (Hsnd : snd (wallet.get_request_funds user w)
                 = snd ((account <- payment_processor.get_account_data (email user) ;;
                         payment_processor.request_funds (address account)) w)).
  { unfold wallet.get_request_funds, isinstance. destruct backend; try congruence.
    all: unfold bind at 1.
    all: rewrite (surjective_pairing (try_except _ _ w)), literal_handler_world.
    all: destruct (fst (try_except _ _ w)); reflexivity. }
  rewrite Hsnd, (get_request_funds_other _ _ Hb). unfold bind.
  rewrite get_account_data_run.
  destruct (sdk_get_account_data (email user) (sdk w)) as [[account | e] s1]; cbn [fst snd].
  - rewrite request_funds_run. cbn [fst snd sdk sdk_calls]. split.
    + rewrite <- app_assoc. reflexivity.
    + intros content s2 Hs. rewrite Hs. reflexivity.
  - reflexivity.
Qed.
End LedgerProperties.

Section DetailProperties.
Context {U S : Type} {PY : PyRuntime} {AR : AuthorizedRequests U} {HP : Helpers U S}.

(** X18: [/user/details], read or patched, answers 200 with the upstream body
    whatever status the market server gave, and 500 with the text of the
    exception when the call raises; an exception of [get_header] itself is
    not caught. *)
Theorem details_mask_upstream_status (user : User) (user_data : pyval) (w : world U S) :
  (forall header w1 response u',
     get_header (email user) w = (Ok header, w1) ->
     make_request_with_headers "/user/list" "get" header None (upstream w1)
     = (Ok response, u') ->
     user.get_user_details user w
     = (Ok (JSONResponse (json response) 200), with_upstream u' w1))
  /\ (forall header w1 response u',
        get_header (email user) w = (Ok header, w1) ->
        make_request_with_headers "/user/list" "patch" header (Some user_data) (upstream w1)
        = (Ok response, u') ->
        user.patch_user_details user_data user w
        = (Ok (JSONResponse (json response) 200), with_upstream u' w1))
  /\ (forall header w1 e u',
        get_header (email user) w = (Ok header, w1) ->
        make_request_with_headers "/user/list" "get" header None (upstream w1)
        = (Raise e, u') ->
        user.get_user_details user w
        = (Ok (JSONResponse (error_content (str e)) 500), with_upstream u' w1))
  /\ (forall header w1 e u',
        get_header (email user) w = (Ok header, w1) ->
        make_request_with_headers "/user/list" "patch" header (Some user_data) (upstream w1)
        = (Raise e, u') ->
        user.patch_user_details user_data user w
        = (Ok (JSONResponse (error_content (str e)) 500), with_upstream u' w1))
  /\ (forall e w1,
        get_header (email user) w = (Raise e, w1) ->
        user.get_user_details user w = (Raise e, w1)
        /\ user.patch_user_details user_data user w = (Raise e, w1)).
Proof.
  unfold user.get_user_details, user.patch_user_details.
  split; [| split; [| split; [| split]]].
  1-4: intros header w1 r u' Hh Hup; unfold bind at 1; rewrite Hh;
    unfold try_except, bind, on_upstream; rewrite Hup; reflexivity.
  intros e w1 Hh. unfold bind. rewrite Hh. split; reflexivity.
Qed.
End DetailProperties.

Section ValidationProperties.

Lemma loc_item_eqb_eq (a b : loc_item) : loc_item_eqb a b = true <-> a = b.
Proof.
  destruct a as [x | x], b as [y | y]; cbn [loc_item_eqb]; split; intros H;
    try discriminate; try (injection H as ->).
  - apply String.eqb_eq in H. congruence.
  - apply String.eqb_refl.
  - apply Z.eqb_eq in H. congruence.
  - apply Z.eqb_refl.
Qed.

Lemma loc_item_eqb_refl (a : loc_item) : loc_item_eqb a a = true.
Proof. apply loc_item_eqb_eq. reflexivity. Qed.

(** Reading a dict after an assignment. *)
Lemma dict_get_set (key k : loc_item) (v : list string) (d : errors_by_loc) :
  dict_get key (dict_set k v d) = if loc_item_eqb k key then Some v else dict_get key d.
Proof.
  induction d as [| [k' v'] rest IH]; cbn [dict_set dict_get].
  - reflexivity.
  - destruct (loc_item_eqb k' k) eqn:Ek; cbn [dict_get].
    + apply loc_item_eqb_eq in Ek. subst k'.
      destruct (loc_item_eqb k key); reflexivity.
    + rewrite IH. destruct (loc_item_eqb k' key) eqn:E1; [| reflexivity].
      destruct (loc_item_eqb k key) eqn:E2; [| reflexivity].
      apply loc_item_eqb_eq in E1, E2. subst. rewrite loc_item_eqb_refl in Ek. discriminate.
Qed.

Lemma dict_set_keys (key k : loc_item) (v : list string) (d : errors_by_loc) :
  In key (map fst (dict_set k v d)) -> key = k \/ In key (map fst d).
Proof.
  induction d as [| [k' v'] rest IH]; cbn [dict_set map fst In].
  - intros [H | []]. left. congruence.
  - destruct (loc_item_eqb k' k) eqn:Ek; cbn [map fst In].
    + intros H. right. exact H.
    + intros [H | H]; [right; left; exact H |].
      destruct (IH H) as [Hk | Hin]; [left; exact Hk | right; right; exact Hin].
Qed.

Lemma dict_set_nodup (k : loc_item) (v : list string) (d : errors_by_loc) :
  NoDup (map fst d) -> NoDup (map fst (dict_set k v d)).
Proof.
  induction d as [| [k' v'] rest IH]; cbn [dict_set map fst]; intros Hnd.
  - constructor; [intros [] | constructor].
  - inversion Hnd as [| ? ? Hnotin Hrest]; subst.
    destruct (loc_item_eqb k' k) eqn:Ek; cbn [map fst].
    + constructor; assumption.
    + constructor; [| apply IH; exact Hrest].
      intros Hin. apply dict_set_keys in Hin. destruct Hin as [-> | Hin].
      * rewrite loc_item_eqb_refl in Ek. discriminate.
      * contradiction.
Qed.

Lemma find_snoc {A : Type} (p : A -> bool) (l : list A) (x : A) :
  find p (l ++ [x])
  = match find p l with
    | Some y => Some y
    | None => if p x then Some x else None
    end.
Proof.
  induction l as [| y l IH]; cbn [app find].
  - reflexivity.
  - destruct (p y); [reflexivity | exact IH].
Qed.

(** The loop, started on any dict. *)
Lemma format_errors_get (errors : list ErrorDetails) :
  forall acc formatted,
    main.format_errors errors acc = Ok formatted ->
    (NoDup (map fst acc) -> NoDup (map fst formatted))
    /\ forall key,
         dict_get key formatted
         = match find (reported_at key) (rev errors) with
           | Some error => Some [error_msg error]
           | None => dict_get key acc
           end.
Proof.
  induction errors as [| error rest IH]; cbn [main.format_errors rev find];
    intros acc formatted H.
  - injection H as <-. auto.
  - destruct (main.last_item (error_loc error)) as [loc |] eqn:El; [| discriminate].
    destruct (IH _ _ H) as [Hnd Hget]. split.
    + intros Hacc. apply Hnd, dict_set_nodup, Hacc.
    + intros key. rewrite Hget, find_snoc, dict_get_set.
      destruct (find (reported_at key) (rev rest)); [reflexivity |].
      unfold reported_at. rewrite El. destruct (loc_item_eqb loc key); reflexivity.
Qed.

Lemma last_item_ok (loc : list loc_item) :
  loc <> [] -> exists item, main.last_item loc = Ok item.
Proof.
  induction loc as [| item rest IH]; [congruence |]. intros _.
  destruct rest as [| item' rest'].
  - exists item. reflexivity.
  - destruct IH as [last Hlast]; [discriminate |]. exists last. exact Hlast.
Qed.

Lemma format_errors_total (errors : list ErrorDetails) :
  forall acc,
    (Forall (fun error => error_loc error <> []) errors ->
       exists formatted, main.format_errors errors acc = Ok formatted)
    /\ (Exists (fun error => error_loc error = []) errors ->
          main.format_errors errors acc = Raise (Exception "tuple index out of range")).
Proof.
  induction errors as [| error rest IH]; intros acc; cbn [main.format_errors]; split.
  - intros _. exists acc. reflexivity.
  - intros H. inversion H.
  - intros H. inversion H as [| ? ? Hloc Hrest]; subst.
    destruct (last_item_ok _ Hloc) as [item ->]. apply IH, Hrest.
  - intros H. destruct (error_loc error) as [| item loc] eqn:El.
    + reflexivity.
    + destruct (last_item_ok (item :: loc)) as [last ->]; [discriminate |].
      apply IH. inversion H as [? ? Hhere | ? ? Hlater]; subst; [congruence | exact Hlater].
Qed.

(** X19: The handler of validation errors answers 400 with one dict when every
    error has a location, and fails with the [IndexError] of [loc[-1]] as
    soon as one has none. *)
Theorem validation_handler_answers_400 (errors : list ErrorDetails) :
  (Forall (fun error => error_loc error <> []) errors ->
     exists formatted,
       main.validation_exception_handler errors
       = Ok (JSONResponse (PDict [(PStr "code", PInt 400);
                                  (PStr "data", PList [dump_errors formatted])]) 400))
  /\ (Exists (fun error => error_loc error = []) errors ->
        main.validation_exception_handler errors
        = Raise (Exception "tuple index out of range")).
Proof.
  unfold main.validation_exception_handler.
  destruct (format_errors_total errors []) as [Hok Hfail]. split; intros H.
  - destruct (Hok H) as [formatted ->]. exists formatted. reflexivity.
  - rewrite (Hfail H). reflexivity.
Qed.

(** X20: In the dict the handler answers with, each last location item is a key
    once, and it holds the message of the last error reported there alone:
    earlier messages for the same field are lost. *)
Theorem validation_handler_keeps_last_message (errors : list ErrorDetails)
    (formatted : errors_by_loc) :
  main.format_errors errors [] = Ok formatted ->
  main.validation_exception_handler errors
  = Ok (JSONResponse (PDict [(PStr "code", PInt 400);
                             (PStr "data", PList [dump_errors formatted])]) 400)
  /\ NoDup (map fst formatted)
  /\ forall key,
       dict_get key formatted
       = option_map (fun error => [error_msg error]) (find (reported_at key) (rev errors)).
Proof.
  intros H. destruct (format_errors_get _ _ _ H) as [Hnd Hget].
  unfold main.validation_exception_handler. rewrite H.
  split; [reflexivity |]. split; [apply Hnd; constructor |].
  intros key. rewrite Hget.
  destruct (find (reported_at key) (rev errors)); reflexivity.
Qed.
End ValidationProperties.

(** * Properties of the menus *)

Section MenuProperties.
Import run_menu.
Context {G : Type} {AM : AgentManager G} {BI : Builtins}.
Local Open Scope menu_scope.

Lemma ends_is_below {T : Type} (fuel : nat) (m : @CLI G T) : ends m -> ends_below fuel m.
Proof. intros H c _. apply H. Qed.

Lemma below_andthen {T T' : Type} (fuel : nat) (m : @CLI G T) (k : T -> CLI T') :
  ends_below fuel m -> (forall t, ends_below fuel (k t)) -> ends_below fuel (x <- m ;; k x).
Proof.
  intros Hm Hk c Hc. destruct (Hm c Hc) as [Hf Hl]. unfold ends_within, andthen in *.
  destruct (m c) as [[t | message | e |] c'] eqn:E; cbn [fst snd] in *;
    try (split; [discriminate | exact Hl]); [| congruence].
  destruct (Hk t c') as [Hf' Hl']; [lia |]. split; [exact Hf' | lia].
Qed.

Lemma ends_andthen {T T' : Type} (m : @CLI G T) (k : T -> CLI T') :
  ends m -> (forall t, ends (k t)) -> ends (x <- m ;; k x).
Proof.
  intros Hm Hk c.
  apply (below_andthen (Datatypes.S (length (stdin c))) m k); try lia;
    intros; apply ends_is_below; auto.
Qed.

Lemma ends_pure {T : Type} (t : T) : ends (pure (G := G) t).
Proof. intros c. split; [discriminate | reflexivity]. Qed.

Lemma ends_emit (ev : event) : ends (emit (G := G) ev).
Proof. intros c. split; [discriminate | reflexivity]. Qed.

Lemma ends_exit {T : Type} (message : string) : ends (exit (G := G) (T := T) message).
Proof. intros c. split; [discriminate | reflexivity]. Qed.

Lemma ends_input (prompt : string) : ends (input (G := G) prompt).
Proof.
  intros c. unfold ends_within, input.
  destruct (stdin c) as [| line rest]; cbn [fst snd stdin length];
    (split; [discriminate | lia]).
Qed.

Lemma ends_int (text : string) : ends (int (G := G) text).
Proof.
  intros c. unfold ends_within, int.
  destruct (py_int (PStr text)); split; try discriminate; reflexivity.
Qed.

Lemma ends_ag {T : Type} (f : G -> result T * G) : ends (ag f).
Proof.
  intros c. unfold ends_within, ag.
  destruct (f (agents c)) as [[t | e] g']; split; try discriminate; reflexivity.
Qed.

Lemma ends_try {T : Type} (m : @CLI G T) (h : exn -> CLI T) :
  ends m -> (forall e, ends (h e)) -> ends (try_except_Exception m h).
Proof.
  intros Hm Hh c. destruct (Hm c) as [Hf Hl]. unfold ends_within, try_except_Exception in *.
  destruct (m c) as [[t | message | e |] c'] eqn:E; cbn [fst snd] in *;
    try (split; [discriminate | exact Hl]); [| congruence].
  destruct (Hh e c') as [Hf' Hl']. split; [exact Hf' | lia].
Qed.

(** Reading the choice uses up a line, so what follows has one round less to
    account for. *)
Lemma below_choice {T : Type} (fuel : nat) (prompt : string) (k : string -> @CLI G T) :
  (forall choice, ends_below fuel (k choice)) ->
  ends_below (Datatypes.S fuel) (choice <- input prompt ;; k choice).
Proof.
  intros Hk c Hc. unfold ends_within, andthen, input.
  destruct (stdin c) as [| line rest] eqn:Es; cbn [fst snd stdin length] in *.
  - split; [discriminate | lia].
  - destruct (Hk line (mkConsole rest (shown c ++ [Prompt prompt]) (agents c)))
      as [Hf Hl]; [cbn [stdin]; lia |].
    split; [exact Hf | cbn [stdin] in Hl; lia].
Qed.

Lemma below_weaken {T : Type} (fuel : nat) (m : @CLI G T) :
  ends_below (Datatypes.S fuel) m -> ends_below fuel m.
Proof. intros H c Hc. apply H. lia. Qed.

Create HintDb menu_ends discriminated.
Hint Resolve ends_pure ends_emit ends_exit ends_input ends_int ends_ag : menu_ends.

Ltac ends_step :=
  lazymatch goal with
  | |- ends (andthen _ _) => apply ends_andthen; [| intros ?]
  | |- ends (try_except_Exception _ _) => apply ends_try; [| intros ?]
  | |- ends (if ?b then _ else _) => destruct b
  | |- ends _ => unfold _clear_console, _sep, _empty, print; auto with menu_ends
  end.

Ltac prove_ends := repeat ends_step.

Lemma ends_installation_menu : ends (installation_menu (G := G)).
Proof. unfold installation_menu. prove_ends. Qed.

Hint Resolve ends_installation_menu : menu_ends.

Ltac below_step :=
  lazymatch goal with
  | |- ends_below (Datatypes.S _) (andthen (input _) _) => apply below_choice; intros ?
  | |- ends_below _ (andthen _ _) => apply below_andthen; [| intros ?]
  | |- ends_below _ (if ?b then _ else _) => destruct b
  | |- ends_below _ (match ?n with NextRound => _ | LeaveMenu => _ end) => destruct n
  | |- ends_below _ (market_loop _) => fail
  | |- ends_below _ (wallet_loop _) => fail
  | |- ends_below _ (main _) => fail
  | |- ends_below _ (main_no_installation _) => fail
  | |- ends_below _ (market_menu _) => unfold market_menu
  | |- ends_below _ (wallet_menu _) => unfold wallet_menu
  | |- ends_below _ _ => apply ends_is_below; prove_ends
  end.

Lemma below_market_loop (fuel : nat) : ends_below fuel (market_loop (G := G) fuel).
Proof.
  induction fuel as [| fuel IH]; [intros c Hc; inversion Hc |].
  cbn [market_loop]. repeat below_step. exact IH.
Qed.

Lemma below_wallet_loop (fuel : nat) : ends_below fuel (wallet_loop (G := G) fuel).
Proof.
  induction fuel as [| fuel IH]; [intros c Hc; inversion Hc |].
  cbn [wallet_loop]. repeat below_step. exact IH.
Qed.

Lemma below_market_menu (fuel : nat) : ends_below fuel (market_menu (G := G) fuel).
Proof. unfold market_menu. repeat below_step. apply below_market_loop. Qed.

Lemma below_wallet_menu (fuel : nat) : ends_below fuel (wallet_menu (G := G) fuel).
Proof. unfold wallet_menu. repeat below_step. apply below_wallet_loop. Qed.

Lemma below_main (fuel : nat) : ends_below fuel (main (G := G) fuel).
Proof.
  induction fuel as [| fuel IH]; [intros c Hc; inversion Hc |].
  cbn [main]. repeat below_step.
  all: first [exact IH | apply below_market_loop | apply below_wallet_loop].
Qed.

Lemma below_main_no_installation (fuel : nat) :
  ends_below fuel (main_no_installation (G := G) fuel).
Proof.
  induction fuel as [| fuel IH]; [intros c Hc; inversion Hc |].
  cbn [main_no_installation]. repeat below_step; try exact IH.
  apply below_main.
Qed.

(** X21: Every menu ends on a finite input: with more rounds allowed than there
    are lines left to read, none of the loops hits the bound, because each
    round reads a line or stops at the end of the input. *)
Theorem menus_end (fuel : nat) (c : console G) :
  (length (stdin c) < fuel)%nat ->
  fst (main fuel c) <> OutOfFuel
  /\ fst (main_no_installation fuel c) <> OutOfFuel
  /\ fst (market_menu fuel c) <> OutOfFuel
  /\ fst (wallet_menu fuel c) <> OutOfFuel.
Proof.
  intros Hc. repeat split.
  - apply (below_main fuel c Hc).
  - apply (below_main_no_installation fuel c Hc).
  - apply (below_market_menu fuel c Hc).
  - apply (below_wallet_menu fuel c Hc).
Qed.

Lemma stable_refl {T : Type} (m : @CLI G T) : stable m m.
Proof. intros c _. reflexivity. Qed.

Lemma stable_andthen {T T' : Type} (m m' : @CLI G T) (k k' : T -> CLI T') :
  stable m m' -> (forall t, stable (k t) (k' t)) ->
  stable (x <- m ;; k x) (x <- m' ;; k' x).
Proof.
  intros Hm Hk c Hc. unfold andthen in *.
  destruct (m c) as [[t | message | e |] c'] eqn:E; cbn [fst] in Hc;
    try (rewrite (Hm c) by (rewrite E; discriminate); rewrite E; reflexivity).
  - rewrite (Hm c) by (rewrite E; discriminate). rewrite E. apply Hk, Hc.
  - congruence.
Qed.

Ltac stable_step :=
  lazymatch goal with
  | |- stable (andthen _ _) (andthen _ _) => apply stable_andthen; [| intros ?]
  | |- stable (if ?b then _ else _) (if ?b then _ else _) => destruct b
  | |- stable (match ?n with NextRound => _ | LeaveMenu => _ end) _ => destruct n
  | |- stable ?m ?m => apply stable_refl
  end.

Lemma stable_market_loop (fuel : nat) :
  stable (market_loop (G := G) fuel) (market_loop (Datatypes.S fuel)).
Proof.
  induction fuel as [| fuel IH]; [intros c Hc; contradiction Hc; reflexivity |].
  cbn [market_loop] in *. repeat stable_step. exact IH.
Qed.

Lemma stable_wallet_loop (fuel : nat) :
  stable (wallet_loop (G := G) fuel) (wallet_loop (Datatypes.S fuel)).
Proof.
  induction fuel as [| fuel IH]; [intros c Hc; contradiction Hc; reflexivity |].
  cbn [wallet_loop] in *. repeat stable_step. exact IH.
Qed.

Lemma stable_main (fuel : nat) : stable (main (G := G) fuel) (main (Datatypes.S fuel)).
Proof.
  induction fuel as [| fuel IH]; [intros c Hc; contradiction Hc; reflexivity |].
  cbn [main] in *. unfold market_menu, wallet_menu. repeat stable_step.
  all: first [exact IH | apply stable_market_loop | apply stable_wallet_loop].
Qed.

Lemma stable_main_no_installation (fuel : nat) :
  stable (main_no_installation (G := G) fuel) (main_no_installation (Datatypes.S fuel)).
Proof.
  induction fuel as [| fuel IH]; [intros c Hc; contradiction Hc; reflexivity |].
  cbn [main_no_installation] in *. repeat stable_step.
  all: first [exact IH | apply stable_main].
Qed.

Lemma stable_more {T : Type} (loop : nat -> @CLI G T) :
  (forall fuel, stable (loop fuel) (loop (Datatypes.S fuel))) ->
  forall extra fuel c, fst (loop fuel c) <> OutOfFuel -> loop (extra + fuel)%nat c = loop fuel c.
Proof.
  intros Hs extra. induction extra as [| extra IH]; intros fuel c Hc; cbn [Nat.add].
  - reflexivity.
  - rewrite (Hs _ c); rewrite (IH _ _ Hc); [reflexivity | exact Hc].
Qed.

(** The outcome of the two main menus on a finite input does not depend on
    the bound: any bound above the number of lines left gives the same
    outcome and the same console. *)
Theorem menus_outcome_fixed (fuel extra : nat) (c : console G) :
  (length (stdin c) < fuel)%nat ->
  main (extra + fuel) c = main fuel c
  /\ main_no_installation (extra + fuel) c = main_no_installation fuel c.
Proof.
  intros Hc. split.
  - apply (stable_more main stable_main). apply (below_main fuel c Hc).
  - apply (stable_more main_no_installation stable_main_no_installation).
    apply (below_main_no_installation fuel c Hc).
Qed.

Lemma andthen_return {T T' : Type} (m : @CLI G T) (k : T -> CLI T') (c : console G)
    (t' : T') :
  fst ((x <- m ;; k x) c) = Return t' ->
  exists t c', m c = (Return t, c') /\ fst (k t c') = Return t'.
Proof.
  unfold andthen. destruct (m c) as [[t | message | e |] c']; cbn [fst]; intros H;
    try discriminate.
  exists t, c'. auto.
Qed.

Ltac return_inv H :=
  repeat match type of H with
         | fst (andthen _ _ _) = Return _ =>
             let t := fresh "t" in
             let c' := fresh "c" in
             let Hm := fresh "Hm" in
             apply andthen_return in H; destruct H as (t & c' & Hm & H)
         end.

(** X22: Neither [main] nor [main_no_installation] returns: they are left by
    [exit] or by an exception only, so after the installation the menu
    without users is never shown again. *)
Theorem main_menus_never_return (fuel : nat) (c : console G) :
  fst (main fuel c) <> Return tt
  /\ fst (main_no_installation fuel c) <> Return tt.
Proof.
  assert (Hmain : forall fuel c, fst (main (G := G) fuel c) <> Return tt).
  { clear. intros fuel. induction fuel as [| fuel IH]; intros c H; [discriminate H |].
    cbn [main] in H. return_inv H. exact (IH _ H). }
  split; [apply Hmain |].
  revert c. induction fuel as [| fuel IH]; intros c H; [discriminate H |].
  cbn [main_no_installation] in H. return_inv H. exact (IH _ H).
Qed.

(** X23: In the main menu every choice but ["2"] and ["0"] prints
    ["Invalid option."], the valid choice ["1"] too, after the market menu
    has returned; the same holds in the market menu for every choice but
    ["2"], ["9"] and ["0"], after the users were registered. *)
Theorem choice_1_is_also_invalid (fuel : nat) (c : console G) (choice : string)
    (rest : list string) :
  stdin c = choice :: rest ->
  choice <> "2" ->
  choice <> "0" ->
  main (Datatypes.S fuel) c
  = ((if String.eqb choice "1" then market_menu fuel else pure tt) ;;
     print "Invalid option." ;;
     main fuel) (asked main_header c rest)
  /\ (choice <> "9" ->
      market_loop (Datatypes.S fuel) c
      = ((if String.eqb choice "1" then
            try_except_Exception (ag register_users)
              (fun e => emit (LogException (Some "Failed to register users") e))
          else pure tt) ;;
         print "Invalid option." ;;
         input "Press any key to continue." ;;
         market_loop fuel) (asked market_header c rest)).
Proof.
  intros Hin H2 H0. apply String.eqb_neq in H2, H0. split.
  - cbn [main]. unfold _clear_console, _sep, _empty, print, emit, input.
    unfold andthen at 1 2 3 4 5 6 7 8. cbn [stdin shown agents]. rewrite Hin.
    unfold asked, main_header. cbn [map]. rewrite <- !app_assoc. cbn [app].
    unfold andthen at 1 3. rewrite H2, H0.
    destruct (String.eqb choice "1"); reflexivity.
  - intros H9. apply String.eqb_neq in H9.
    cbn [market_loop]. unfold _clear_console, _sep, _empty, print, emit, input.
    unfold andthen at 1 2 3 4 5 6 7 8 9. cbn [stdin shown agents]. rewrite Hin.
    unfold asked, market_header. cbn [map]. rewrite <- !app_assoc. cbn [app].
    rewrite H2, H9, H0.
    unfold andthen, pure. destruct (String.eqb choice "1").
    + destruct (try_except_Exception _ _ _) as [[[] | message | e |] c']; reflexivity.
    + reflexivity.
Qed.

(** X24: In the wallet menu an exception of the agent manager does not leave the
    menu: for the choices ["1"], ["2"] and ["4"] the round goes on to the
    pause whatever the operation did, with the exception logged if there was
    one, and ["Invalid option."] is not printed. *)
Theorem wallet_menu_contains_agent_errors (fuel : nat) (c : console G) (choice : string)
    (rest : list string) (operation : G -> result unit * G) :
  stdin c = choice :: rest ->
  In (choice, operation)
     [("1", get_wallet_addresses); ("2", get_wallet_balances); ("4", request_tokens)] ->
  wallet_loop (Datatypes.S fuel) c
  = (input "Press any key to continue." ;; wallet_loop fuel)
      match operation (agents c) with
      | (Ok _, g') => with_agents g' (asked wallet_header c rest)
      | (Raise e, g') =>
          showing (LogException None e) (with_agents g' (asked wallet_header c rest))
      end.
Proof.
  intros Hin Hop.
  cbn [wallet_loop]. unfold _clear_console, _sep, _empty, print, emit, input.
  unfold andthen at 1 2 3 4 5 6 7 8 9 10 11. cbn [stdin shown agents]. rewrite Hin.
  unfold asked, wallet_header, with_agents, showing. cbn [map].
  rewrite <- !app_assoc. cbn [app].
  destruct Hop as [H | [H | [H | []]]]; injection H as <- <-; cbn [String.eqb Ascii.eqb Bool.eqb];
    unfold andthen, try_except_Exception, ag, pure; cbn [agents stdin shown];
    match goal with
    | |- context [match ?op (agents c) with _ => _ end] =>
        destruct (op (agents c)) as [[[] | e] g']
    end; reflexivity.
Qed.

(** X25: The installation menu reaches the agent manager only after an answer
    that is ["y"] in lower case and a number of users that [int] accepts:
    any other answer, the empty line too, creates nothing, and a number that
    [int] rejects ends the menu with the exception of [int]. *)
Theorem installation_needs_confirmation (c : console G) (answer : string)
    (rest : list string) :
  stdin c = answer :: rest ->
  (lower answer <> "y" -> agents (snd (installation_menu c)) = agents c)
  /\ (lower answer = "y" ->
      forall count rest' e,
        rest = count :: rest' ->
        py_int (PStr count) = Raise e ->
        fst (installation_menu c) = Uncaught e
        /\ agents (snd (installation_menu c)) = agents c)
  /\ (lower answer = "y" ->
      forall count rest' n g1 g2,
        rest = count :: rest' ->
        py_int (PStr count) = Ok n ->
        new_agent_manager (agents c) = (Ok tt, g1) ->
        create_user_wallets n g1 = (Ok tt, g2) ->
        agents (snd (installation_menu c)) = g2).
Proof.
  intros Hin. unfold installation_menu, _clear_console, print, emit, input, int, ag, pure.
  unfold andthen. cbn [stdin shown agents]. rewrite Hin. cbn [stdin shown agents].
  split; [| split].
  - intros Hno. apply String.eqb_neq in Hno. rewrite Hno.
    destruct rest; reflexivity.
  - intros Hyes count rest' e -> Hint. apply String.eqb_eq in Hyes. rewrite Hyes.
    cbn [stdin shown agents]. rewrite Hint. split; reflexivity.
  - intros Hyes count rest' n g1 g2 -> Hint Hnew Hcreate.
    apply String.eqb_eq in Hyes. rewrite Hyes. cbn [stdin shown agents].
    rewrite Hint. cbn [agents]. rewrite Hnew.
    cbn [agents]. rewrite Hcreate. cbn [stdin]. destruct rest'; reflexivity.
Qed.
End MenuProperties.

(** * The routes on the test doubles *)

Section OnTheFixture.
Import Fixture.

Lemma read_ones_ones (n k : nat) (rest : string) :
  read_ones (ones n ++ String "." rest) k = Some ((n + k)%nat, rest).
Proof.
  revert k. induction n as [| n IH]; intros k; cbn.
  - reflexivity.
  - rewrite IH. rewrite Nat.add_succ_r. reflexivity.
Qed.

Lemma toy_verify_sign (payload : claims) :
  toy_verify (toy_sign payload) = Some payload.
Proof.
  destruct payload as [subject expiry]. unfold toy_sign. cbn [exp sub].
  destruct (expiry <? 0) eqn:E; cbn [append toy_verify];
    rewrite read_ones_ones, Nat.add_0_r.
  - apply Z.ltb_lt in E. destruct (Z.abs_nat expiry) eqn:Ea; [lia |].
    rewrite <- Ea, Zabs2Nat.id_abs, Z.abs_neq by lia.
    rewrite Z.opp_involutive. reflexivity.
  - apply Z.ltb_ge in E. rewrite Zabs2Nat.id_abs, Z.abs_eq by lia. reflexivity.
Qed.


Lemma show_string (s : string) : show (PStr s) = s.
Proof. reflexivity. Qed.

#[local] Existing Instance scripted_upstream.
#[local] Existing Instance toy_crypt.
#[local] Existing Instance toy_tokens.
#[local] Existing Instance toy_runtime.

(** C1 on the test doubles: the gateway already has the account, so creating
    it raises; the registration is answered 201 and the row is stored. *)
Lemma register_payment_failure_witness :
  sdk_create_account (PaymentProcessor := ethereum) alice_email [alice_email]
  = (Raise (Exception "{'error': 'account exists'}"), [alice_email])
  /\ fst (user.register_user (PP := ethereum) alice_registration
                             (start [Ok created] [] [alice_email]))
     = Ok (JSONResponse (error_content "{'error': 'account exists'}") 201)
  /\ http_status (fst (user.register_user (PP := ethereum) alice_registration
                                          (start [Ok created] [] [alice_email]))) = 201
  /\ query_user_first alice_email
       (users (snd (user.register_user (PP := ethereum) alice_registration
                                       (start [Ok created] [] [alice_email])))) <> None.
Proof.
  split; [reflexivity |].
  apply (register_payment_failure_answers_201 (PP := ethereum) alice_registration
           (start [Ok created] [] [alice_email]) created []
           (Exception "{'error': 'account exists'}") [alice_email]).
  - reflexivity.
  - left. reflexivity.
  - reflexivity.
Defined.

(** C2 on the test doubles. *)
Lemma request_funds_ethereum_witness :
  read_literal "400: Faucet not available for Ethereum" = None
  /\ wallet.get_request_funds (PP := ethereum) alice (start [] [alice] [alice_email])
     = (Raise (MalformedLiteral "400: Faucet not available for Ethereum"),
        start [] [alice] [alice_email])
  /\ http_status (fst (wallet.get_request_funds (PP := ethereum) alice
                                                (start [] [alice] [alice_email]))) = 500
  /\ calls_since (start [] [alice] [alice_email])
                 (snd (wallet.get_request_funds (PP := ethereum) alice
                                                (start [] [alice] [alice_email]))) [].
Proof.
  split; [reflexivity |].
  apply (request_funds_ethereum_not_400 (PY := toy_runtime) (PP := ethereum) show_string alice
           (start [] [alice] [alice_email])); reflexivity.
Defined.

(** C3 as stated fails: the market server turns the login down with 401 and
    a body, the local authentication succeeds, and the route answers 401
    with ["Failed to login"], which is not the upstream body. *)
Lemma login_passthrough_counterexample :
  make_request "/token" "post" (login_model_dump alice_login) [Ok rejected]
  = (Ok rejected, [])
  /\ upstream_status rejected = 401
  /\ fst (user.login alice_login (start [Ok rejected] [alice] []))
     = Raise (HTTPException 401 (PStr "Failed to login"))
  /\ ~ passes_through rejected (fst (user.login alice_login (start [Ok rejected] [alice] []))).
Proof.
  assert (Hrun : fst (user.login alice_login (start [Ok rejected] [alice] []))
                 = Raise (HTTPException 401 (PStr "Failed to login")))
    by (vm_compute; reflexivity).
  split; [reflexivity |]. split; [reflexivity |]. split; [exact Hrun |].
  rewrite Hrun. intros [H | H]; discriminate H.
Qed.

(** C3, as the code has it, on the test doubles. *)
Lemma login_upstream_failure_witness :
  fst (user.login alice_login (start [Ok rejected] [alice] []))
  = Raise (HTTPException (upstream_status rejected) (PStr "Failed to login"))
  /\ http_status (fst (user.login alice_login (start [Ok rejected] [alice] [])))
     = upstream_status rejected.
Proof.
  apply (login_upstream_failure alice_login (start [Ok rejected] [alice] [])
           rejected [] alice).
  - reflexivity.
  - discriminate.
  - split; reflexivity.
Defined.

(** C4 on the test doubles: the market server accepts, the local password is
    wrong. *)
Lemma login_local_mismatch_witness :
  local_mismatch alice_wrong_password [alice]
  /\ fst (user.login alice_wrong_password (start [Ok accepted] [alice] []))
     = Raise (HTTPException 400 (PStr "Incorrect username or password"))
  /\ http_status (fst (user.login alice_wrong_password (start [Ok accepted] [alice] [])))
     = 400.
Proof.
  assert (Hm : local_mismatch alice_wrong_password [alice]).
  { right. exists alice. split; reflexivity. }
  split; [exact Hm |].
  apply (proj1 (login_local_mismatch_400 alice_wrong_password
                  (start [Ok accepted] [alice] []) Hm) accepted []).
  reflexivity.
Defined.

(** C4 as stated fails: the password is wrong and the market server cannot
    be reached, so the call raises before the credentials are looked at and
    the login ends with the [ConnectionError], a 500. *)
Lemma login_mismatch_counterexample :
  local_mismatch alice_wrong_password (users (start [] [alice] []))
  /\ fst (user.login alice_wrong_password (start [] [alice] []))
     = Raise (ConnectionError "connection refused")
  /\ http_status (fst (user.login alice_wrong_password (start [] [alice] []))) <> 400.
Proof.
  split; [| split].
  - right. exists alice. split; reflexivity.
  - reflexivity.
  - discriminate.
Qed.



(** C6 on the test doubles, once with the IOTA backend and once with the
    Ethereum one. *)
Lemma balance_call_pattern_witness :
  calls_since (start [] [alice] [alice_email])
              (snd (wallet.get_balance (PP := iota) alice (start [] [alice] [alice_email])))
              [GetBalance alice_email]
  /\ calls_since (start [] [alice] [alice_email])
                 (snd (wallet.get_balance (PP := ethereum) alice
                                          (start [] [alice] [alice_email])))
                 [GetAccountData alice_email; GetBalance ("addr:" ++ alice_email)]
  /\ fst (wallet.get_balance (PP := ethereum) alice (start [] [alice] [alice_email]))
     = Ok (PInt 0).
Proof.
  split.
  - apply (proj1 (balance_call_pattern (PP := iota) alice
                    (start [] [alice] [alice_email]))).
    reflexivity.
  - assert (Hb : backend (PaymentProcessor := ethereum) <> IOTAPaymentController)
      by discriminate.
    pose proof (proj2 (balance_call_pattern (PP := ethereum) alice
                         (start [] [alice] [alice_email])) Hb) as [Hcalls Hvalue].
    split.
    + exact Hcalls.
    + apply (Hvalue (PInt 0) [alice_email]). reflexivity.
Defined.


(** C8 on the test doubles: a refresh token issued at time 1 is handed in at
    time 3; an expired one and garbage are handed in. *)
Lemma refresh_flow_witness :
  user.post_refresh_token "+1111111.alice@example.org" (at_time 3 [] [alice] [])
  = (Ok (Returned (PDict [(PStr "access_token", PStr "+111111.alice@example.org");
                          (PStr "refresh_token", PStr "+111111111.alice@example.org");
                          (PStr "token_type", PStr "bearer")])),
     at_time 3 [] [alice] [])
  /\ toy_verify "+111111111.alice@example.org" = Some (mkClaims alice_email 9)
  /\ user.post_refresh_token "+1111111.alice@example.org" (at_time 8 [] [alice] [])
     = (Raise (HTTPException 401 (PStr "Invalid token")), at_time 8 [] [alice] [])
  /\ http_status (fst (user.post_refresh_token "tampered" (at_time 3 [] [alice] []))) = 401.
Proof.
  pose proof (refresh_flow (U := list (result UpstreamResponse)) (S := list string)
                (TS := toy_tokens) toy_verify_sign) as [Hgood Hbad].
  pose proof (Hgood alice_email (start [] [alice] []) (at_time 3 [] [alice] [])
                "+1111111.alice@example.org" eq_refl ltac:(discriminate) eq_refl)
    as (Hrun & _ & _ & _ & Hrefresh).
  split; [exact Hrun |]. split; [exact Hrefresh |]. split.
  - apply Hbad. right. exists (mkClaims "alice@example.org" 7). split.
    + reflexivity.
    + discriminate.
  - apply Hbad. left. reflexivity.
Defined.

(** C9 on the test doubles: a signed, unexpired token for an email without a
    row. *)
Lemma refresh_unknown_subject_witness :
  user.post_refresh_token "+1111111.bob@example.org" (at_time 3 [] [alice] [])
  = (Raise (HTTPException 401 (PStr "Invalid token")), at_time 3 [] [alice] [])
  /\ http_status (fst (user.post_refresh_token "+1111111.bob@example.org"
                                               (at_time 3 [] [alice] []))) = 401.
Proof.
  apply (refresh_unknown_subject "+1111111.bob@example.org"
           (mkClaims "bob@example.org" 7) (at_time 3 [] [alice] [])); reflexivity.
Defined.

(** C10 on the test doubles: an SDK exception whose string form is a literal
    gives the 400 with the parsed dict; one whose string form is no literal,
    and the rejection of the Ethereum backend, give the parser's exception. *)
Lemma literal_handler_witness :
  fst (wallet.get_wallet_address (PP := iota) alice (start [] [alice] []))
  = Raise (HTTPException 400 (PDict [(PStr "error", PStr "unknown account")]))
  /\ fst (wallet.get_request_funds (PP := iota) alice (start [] [alice] [alice_email]))
     = Ok (Response "{}" 200)
  /\ fst (wallet.get_request_funds (PP := ethereum) alice (start [] [alice] [alice_email]))
     = Raise (MalformedLiteral "400: Faucet not available for Ethereum").
Proof.
  pose proof (literal_handler_partial (PY := toy_runtime) (PP := iota) show_string alice
                (start [] [alice] [])) as (Haddress & _).
  pose proof (literal_handler_partial (PY := toy_runtime) (PP := ethereum) show_string
                alice (start [] [alice] [alice_email]))
    as (_ & _ & _ & _ & _ & _ & _ & _ & _ & Hfaucet).
  split; [| split].
  - rewrite (Haddress (Exception "{'error': 'unknown account'}") [] eq_refl).
    reflexivity.
  - reflexivity.
  - apply Hfaucet; reflexivity.
Defined.
End OnTheFixture.

(** * The other routes and the menus on the test doubles *)

Section OthersOnTheFixture.
Import Fixture.

#[local] Existing Instance scripted_upstream.
#[local] Existing Instance toy_crypt.
#[local] Existing Instance toy_tokens.
#[local] Existing Instance toy_runtime.
#[local] Existing Instance toy_builtins.
#[local] Existing Instance memory_ledger.
#[local] Existing Instance scripted_authorized.
#[local] Existing Instance cached_header.

Lemma bob_social_answer :
  social_answer bob_accepted "bob@example.org" (PStr "upstream-bob").
Proof. split; [reflexivity |]. eexists _, _. repeat split; reflexivity. Qed.

Lemma social_login_hides_upstream_status_witness :
  user.social_login (PP := iota) PNone "abc" (start [Ok rejected] [alice] [])
  = (Ok (JSONResponse (error_content "401: Failed to login") 500), start [] [alice] []).
Proof.
  exact (social_login_hides_upstream_status (PY := toy_runtime) (PP := iota) PNone "abc"
           (start [Ok rejected] [alice] []) rejected [] show_string eq_refl
           ltac:(discriminate)).
Defined.

Lemma social_login_provisions_user_witness :
  user.social_login (PP := iota) PNone "abc" (start [Ok bob_accepted] [alice] [])
  = (Ok (JSONResponse (token_pair "+1111.bob@example.org" "+1111111.bob@example.org") 200),
     mkWorld [alice; mkUser "bob@example.org" "hash:abc"]
             [mkToken "bob@example.org" (PStr "upstream-bob") 1 5]
             [cleanup_expired_tokens_task "bob@example.org"]
             [CreateAccount "bob@example.org"] 1 [] ["bob@example.org"]).
Proof.
  exact (social_login_provisions_user (PP := iota) PNone "abc"
           (start [Ok bob_accepted] [alice] []) bob_accepted [] "bob@example.org"
           (PStr "upstream-bob") ["bob@example.org"]
           eq_refl bob_social_answer eq_refl eq_refl).
Defined.

Lemma social_login_known_user_witness :
  user.social_login (PP := iota) PNone "abc"
    (start [Ok bob_accepted] [mkUser "bob@example.org" "hash:old"] [])
  = (Ok (JSONResponse (token_pair "+1111.bob@example.org" "+1111111.bob@example.org") 200),
     mkWorld [mkUser "bob@example.org" "hash:old"]
             [mkToken "bob@example.org" (PStr "upstream-bob") 1 5]
             [cleanup_expired_tokens_task "bob@example.org"] [] 1 [] []).
Proof.
  exact (social_login_known_user (PP := iota) PNone "abc"
           (start [Ok bob_accepted] [mkUser "bob@example.org" "hash:old"] [])
           bob_accepted [] "bob@example.org" (PStr "upstream-bob")
           (mkUser "bob@example.org" "hash:old") eq_refl bob_social_answer eq_refl).
Defined.

Lemma social_login_account_never_retried_witness :
  fst (user.social_login (PP := iota) PNone "abc"
         (start [Ok bob_accepted; Ok bob_accepted] [] ["bob@example.org"]))
  = Ok (JSONResponse (error_content "{'error': 'account exists'}") 500)
  /\ sdk_calls (snd (user.social_login (PP := iota) PNone "xyz"
                       (snd (user.social_login (PP := iota) PNone "abc"
                               (start [Ok bob_accepted; Ok bob_accepted] []
                                      ["bob@example.org"])))))
     = [CreateAccount "bob@example.org"].
Proof.
  pose proof (social_login_account_never_retried (PY := toy_runtime) (PP := iota)
                PNone "abc" "xyz"
                (start [Ok bob_accepted; Ok bob_accepted] [] ["bob@example.org"])
                bob_accepted bob_accepted [Ok bob_accepted] [] "bob@example.org"
                (PStr "upstream-bob") (PStr "upstream-bob")
                (Exception "{'error': 'account exists'}") ["bob@example.org"]
                eq_refl bob_social_answer eq_refl eq_refl eq_refl bob_social_answer)
    as (Hfirst & _ & _ & _ & _ & Hcalls & _).
  split; [exact Hfirst | exact Hcalls].
Defined.

Lemma social_login_missing_data_witness :
  user.social_login (PP := iota) PNone "abc" (start [Ok no_data] [alice] [])
  = (Ok (JSONResponse (error_content "'data'") 500), start [] [alice] []).
Proof.
  exact (social_login_missing_data (PP := iota) PNone "abc" (start [Ok no_data] [alice] [])
           no_data [] [(PStr "detail", PStr "created")] eq_refl eq_refl eq_refl eq_refl).
Defined.

Lemma login_missing_access_witness :
  user.login alice_login (start [Ok no_access] [alice] [])
  = (Raise (KeyError "access"), start [] [alice] [])
  /\ http_status (fst (user.login alice_login (start [Ok no_access] [alice] []))) = 500.
Proof.
  exact (login_missing_access alice_login (start [Ok no_access] [alice] []) no_access []
           [(PStr "refresh", PStr "upstream-refresh")] alice
           eq_refl eq_refl eq_refl eq_refl (conj eq_refl eq_refl)).
Defined.

Lemma login_upstream_exception_witness :
  user.login alice_login (start [] [alice] [])
  = (Raise (ConnectionError "connection refused"), start [] [alice] [])
  /\ http_status (fst (user.login alice_login (start [] [alice] []))) = 500.
Proof.
  pose proof (login_upstream_exception alice_login (start [] [alice] [])
                (ConnectionError "connection refused") [] eq_refl) as (Hrun & Hstatus & _).
  split; [exact Hrun | exact (Hstatus "connection refused" eq_refl)].
Defined.

Lemma register_upstream_exception_witness :
  user.register_user (PP := iota) alice_registration (start [] [] [])
  = (Ok (JSONResponse (error_content "connection refused") 503), start [] [] []).
Proof.
  exact (proj1 (register_upstream_exception (PP := iota) alice_registration
                  (start [] [] []) (ConnectionError "connection refused") [] eq_refl)).
Defined.

Lemma register_other_status_witness :
  user.register_user (PP := iota) alice_registration (start [Ok not_found] [] [])
  = (Raise (HTTPException 404 (PDict [(PStr "detail", PStr "Not found")])), start [] [] [])
  /\ passes_through not_found
       (fst (user.register_user (PP := iota) alice_registration
                                (start [Ok not_found] [] []))).
Proof.
  pose proof (register_other_status (PP := iota) alice_registration
                (start [Ok not_found] [] []) not_found [] eq_refl) as H.
  destruct H as (Hrun & Hpass & _); [discriminate | discriminate |].
  split; [exact Hrun | exact Hpass].
Defined.

Lemma register_conflict_answers_201_witness :
  http_status (fst (user.register_user (PP := iota) alice_registration
                                       (start [Ok conflict] [alice] []))) = 201
  /\ fst (user.register_user (PP := iota) alice_registration
                             (start [Ok conflict] [alice] []))
     = Ok (JSONResponse (PDict [(PStr "detail", PStr "user already exists")]) 201).
Proof.
  pose proof (register_conflict_answers_201 (PP := iota) alice_registration
                (start [Ok conflict] [alice] []) conflict [] eq_refl
                (or_intror eq_refl)) as [Hstatus Hbody].
  split; [exact Hstatus | exact (Hbody [alice_email] eq_refl)].
Defined.

Lemma register_then_login_witness :
  fst (user.login alice_login
         (snd (user.register_user (PP := iota) alice_registration
                                  (start [Ok created; Ok accepted] [] []))))
  = Ok (JSONResponse (token_pair "+1111.alice@example.org" "+1111111.alice@example.org")
                     200).
Proof.
  exact (register_then_login (PP := iota) alice_registration
           (start [Ok created; Ok accepted] [] []) created accepted [Ok accepted] []
           [(PStr "access", PStr "upstream-access"); (PStr "refresh", PStr "upstream-refresh")]
           (PStr "upstream-access")
           eq_refl eq_refl eq_refl (or_introl eq_refl) eq_refl eq_refl eq_refl eq_refl).
Defined.

Lemma register_keeps_stored_hash_witness :
  users (snd (user.register_user (PP := iota) (mkRegistration alice_email "queen" [])
                                 (start [Ok conflict; Ok accepted] [alice] [])))
  = [alice]
  /\ fst (user.login alice_wrong_password
            (snd (user.register_user (PP := iota) (mkRegistration alice_email "queen" [])
                                     (start [Ok conflict; Ok accepted] [alice] []))))
     = Raise (HTTPException 400 (PStr "Incorrect username or password")).
Proof.
  pose proof (register_keeps_stored_hash (PP := iota) (mkRegistration alice_email "queen" [])
                (start [Ok conflict; Ok accepted] [alice] []) alice conflict accepted
                [Ok accepted] [] eq_refl eq_refl (or_intror eq_refl)) as [Husers Hlogin].
  split; [exact Husers | exact (Hlogin eq_refl eq_refl)].
Defined.

Lemma ledger_failures_are_400_witness :
  transactions_block_raises (PP := iota) alice (start [] [alice] [])
    (Exception "{'error': 'unknown account'}")
  /\ fst (wallet.get_transactions (PP := iota) alice (start [] [alice] []))
     = Raise (HTTPException 400 (PStr "{'error': 'unknown account'}"))
  /\ transfer_block_raises (PP := iota) (mkTransfer "bob@example.org" (PStr "a lot"))
       alice (start [] [alice] [alice_email])
       (Exception "invalid literal for int() with base 10: 'a lot'")
  /\ fst (wallet.post_transfer_funds (PP := iota)
            (mkTransfer "bob@example.org" (PStr "a lot")) alice
            (start [] [alice] [alice_email]))
     = Raise (HTTPException 400
                (PStr "invalid literal for int() with base 10: 'a lot'")).
Proof.
  assert (H1 : transactions_block_raises (PP := iota) alice (start [] [alice] [])
                 (Exception "{'error': 'unknown account'}")).
  { left. exists []. reflexivity. }
  assert (H2 : transfer_block_raises (PP := iota)
                 (mkTransfer "bob@example.org" (PStr "a lot")) alice
                 (start [] [alice] [alice_email])
                 (Exception "invalid literal for int() with base 10: 'a lot'")).
  { left. split; reflexivity. }
  split; [exact H1 |]. split; [| split; [exact H2 |]].
  - apply (proj1 (ledger_failures_are_400 (PP := iota) alice (mkTransfer "bob" (PInt 1))
                    (start [] [alice] [])
                    (HTTPException 400 (PStr "{'error': 'unknown account'}")))).
    eexists. split; [exact H1 | reflexivity].
  - apply (proj2 (ledger_failures_are_400 (PP := iota) alice
                    (mkTransfer "bob@example.org" (PStr "a lot"))
                    (start [] [alice] [alice_email])
                    (HTTPException 400
                       (PStr "invalid literal for int() with base 10: 'a lot'")))).
    eexists. split; [exact H2 | reflexivity].
Defined.

Lemma transfer_call_pattern_witness :
  fst (wallet.post_transfer_funds (PP := iota) (mkTransfer "bob@example.org" (PStr "12"))
         alice (start [] [alice] [alice_email]))
  = Ok (PDict [(PStr "from", PStr alice_email); (PStr "to", PStr "bob@example.org");
               (PStr "value", PInt 12)])
  /\ fst (wallet.post_transfer_funds (PP := ethereum)
            (mkTransfer "bob@example.org" (PStr "12")) alice
            (start [] [alice] [alice_email]))
     = Ok (PDict [(PStr "from", PStr ("addr:" ++ alice_email));
                  (PStr "to", PStr "bob@example.org"); (PStr "value", PStr "12")]).
Proof.
  assert (Hb : backend (PaymentProcessor := ethereum) <> IOTAPaymentController)
    by discriminate.
  pose proof (proj1 (transfer_call_pattern (PP := iota)
                       (mkTransfer "bob@example.org" (PStr "12")) alice
                       (start [] [alice] [alice_email])) eq_refl) as Hiota.
  pose proof (proj2 (transfer_call_pattern (PP := ethereum)
                       (mkTransfer "bob@example.org" (PStr "12")) alice
                       (start [] [alice] [alice_email])) Hb) as Hother.
  cbv in Hiota, Hother. split; [exact (proj1 Hiota) | exact (proj1 Hother)].
Defined.

Lemma faucet_call_pattern_witness :
  calls_since (start [] [alice] [alice_email])
    (snd (wallet.get_request_funds (PP := iota) alice (start [] [alice] [alice_email])))
    [GetAccountData alice_email; RequestFunds ("addr:" ++ alice_email)]
  /\ fst (wallet.get_request_funds (PP := iota) alice (start [] [alice] [alice_email]))
     = Ok (Response "{}" 200).
Proof.
  assert (Hb : backend (PaymentProcessor := iota) <> EthereumSmartContract) by discriminate.
  pose proof (faucet_call_pattern (PY := toy_runtime) (PP := iota) alice
                (start [] [alice] [alice_email]) Hb) as [Hcalls Hanswer].
  split; [exact Hcalls | exact (Hanswer "{}" [alice_email] eq_refl)].
Defined.

Lemma details_mask_upstream_status_witness :
  user.get_user_details alice
    (mkWorld [alice] [mkToken alice_email (PStr "tok") 1 5] [] [] 2 [Ok not_found] [])
  = (Ok (JSONResponse (PDict [(PStr "detail", PStr "Not found")]) 200),
     mkWorld [alice] [mkToken alice_email (PStr "tok") 1 5] [] [] 2 [] []).
Proof.
  apply (proj1 (details_mask_upstream_status alice PNone
                  (mkWorld [alice] [mkToken alice_email (PStr "tok") 1 5] [] [] 2
                           [Ok not_found] []))
           (PDict [(PStr "Authorization", PStr "Bearer tok")])
           (mkWorld [alice] [mkToken alice_email (PStr "tok") 1 5] [] [] 2
                    [Ok not_found] [])
           not_found []); reflexivity.
Defined.

Lemma validation_handler_answers_400_witness :
  main.validation_exception_handler
    [mkError [LocName "body"; LocName "email"] "field required";
     mkError [LocName "body"; LocIndex 0] "not an integer"]
  = Ok (JSONResponse
          (PDict [(PStr "code", PInt 400);
                  (PStr "data",
                   PList [PDict [(PStr "email", PList [PStr "field required"]);
                                 (PInt 0, PList [PStr "not an integer"])]])]) 400)
  /\ main.validation_exception_handler
       [mkError [LocName "body"; LocName "email"] "field required"; mkError [] "no place"]
     = Raise (Exception "tuple index out of range").
Proof.
  split.
  - pose proof (proj1 (validation_handler_answers_400
                         [mkError [LocName "body"; LocName "email"] "field required";
                          mkError [LocName "body"; LocIndex 0] "not an integer"]))
      as Hok.
    destruct Hok as [formatted Hanswer].
    + repeat constructor; discriminate.
    + reflexivity.
  - apply (proj2 (validation_handler_answers_400
                    [mkError [LocName "body"; LocName "email"] "field required";
                     mkError [] "no place"])).
    apply Exists_cons_tl, Exists_cons_hd. reflexivity.
Defined.

Lemma validation_handler_keeps_last_message_witness :
  dict_get (LocName "email") [(LocName "email", ["not a valid email"])]
  = Some ["not a valid email"]
  /\ main.validation_exception_handler
       [mkError [LocName "body"; LocName "email"] "field required";
        mkError [LocName "query"; LocName "email"] "not a valid email"]
     = Ok (JSONResponse
             (PDict [(PStr "code", PInt 400);
                     (PStr "data",
                      PList [PDict [(PStr "email", PList [PStr "not a valid email"])]])])
             400).
Proof.
  pose proof (validation_handler_keeps_last_message
                [mkError [LocName "body"; LocName "email"] "field required";
                 mkError [LocName "query"; LocName "email"] "not a valid email"]
                [(LocName "email", ["not a valid email"])] eq_refl)
    as (Hanswer & _ & Hget).
  split; [exact (Hget (LocName "email")) | exact Hanswer].
Defined.

Lemma menus_end_witness :
  fst (run_menu.main (AM := toy_agents false) 4 (typed ["1"; "9"; "0"]))
  <> run_menu.OutOfFuel
  /\ fst (run_menu.main (AM := toy_agents false) 4 (typed ["1"; "9"; "0"]))
     = run_menu.SystemExit "Exit.".
Proof.
  split; [| reflexivity].
  assert (Hlines : (length (run_menu.stdin (typed ["1"; "9"; "0"])) < 4)%nat)
    by (cbn [length run_menu.stdin typed]; lia).
  exact (proj1 (menus_end (AM := toy_agents false) 4 (typed ["1"; "9"; "0"]) Hlines)).
Defined.

Lemma menus_outcome_fixed_witness :
  run_menu.main (AM := toy_agents false) (5 + 4) (typed ["1"; "9"; "0"])
  = run_menu.main (AM := toy_agents false) 4 (typed ["1"; "9"; "0"]).
Proof.
  assert (Hlines : (length (run_menu.stdin (typed ["1"; "9"; "0"])) < 4)%nat)
    by (cbn [length run_menu.stdin typed]; lia).
  exact (proj1 (menus_outcome_fixed (AM := toy_agents false) 4 5 (typed ["1"; "9"; "0"])
                  Hlines)).
Defined.

Lemma choice_1_is_also_invalid_witness :
  In (run_menu.Printed "Invalid option.")
     (run_menu.shown (snd (run_menu.main (AM := toy_agents false) 4 (typed ["1"; "9"]))))
  /\ run_menu.agents (snd (run_menu.main (AM := toy_agents false) 4 (typed ["1"; "9"])))
     = ["load"].
Proof.
  pose proof (proj1 (choice_1_is_also_invalid (AM := toy_agents false) 3
                       (typed ["1"; "9"]) "1" ["9"] eq_refl
                       ltac:(discriminate) ltac:(discriminate))) as Hrun.
  rewrite Hrun. split; [vm_compute; tauto | reflexivity].
Defined.

Lemma wallet_menu_contains_agent_errors_witness :
  run_menu.wallet_loop (AM := toy_agents true) 3 (typed ["4"; ""; "9"])
  = (run_menu.Return tt,
     run_menu.mkConsole []
       (run_menu.shown (snd (run_menu.wallet_loop (AM := toy_agents true) 3
                               (typed ["4"; ""; "9"]))))
       ["faucet"])
  /\ In (run_menu.LogException None (Exception "faucet failed"))
        (run_menu.shown (snd (run_menu.wallet_loop (AM := toy_agents true) 3
                                (typed ["4"; ""; "9"])))).
Proof.
  pose proof (wallet_menu_contains_agent_errors (AM := toy_agents true) 2
                (typed ["4"; ""; "9"]) "4" [""; "9"] request_tokens eq_refl
                (or_intror (or_intror (or_introl eq_refl)))) as Hrun.
  rewrite Hrun. split; [reflexivity | vm_compute; tauto].
Defined.

Lemma installation_needs_confirmation_witness :
  run_menu.agents (snd (run_menu.installation_menu (AM := toy_agents false)
                          (typed [""; "3"]))) = []
  /\ run_menu.agents (snd (run_menu.installation_menu (AM := toy_agents false)
                             (typed ["Y"; "3"; ""]))) = ["create 3"]
  /\ fst (run_menu.installation_menu (AM := toy_agents false) (typed ["y"; "three"]))
     = run_menu.Uncaught
         (Exception "invalid literal for int() with base 10: 'three'").
Proof.
  pose proof (proj1 (installation_needs_confirmation (AM := toy_agents false)
                       (typed [""; "3"]) "" ["3"] eq_refl)) as Hno.
  pose proof (proj2 (proj2 (installation_needs_confirmation (AM := toy_agents false)
                              (typed ["Y"; "3"; ""]) "Y" ["3"; ""] eq_refl))) as Hyes.
  pose proof (proj1 (proj2 (installation_needs_confirmation (AM := toy_agents false)
                              (typed ["y"; "three"]) "y" ["three"] eq_refl))) as Hbad.
  split; [| split].
  - apply Hno. discriminate.
  - exact (Hyes eq_refl "3" [""] 3 [] ["create 3"] eq_refl eq_refl eq_refl eq_refl).
  - exact (proj1 (Hbad eq_refl "three" []
                    (Exception "invalid literal for int() with base 10: 'three'")
                    eq_refl eq_refl)).
Defined.
End OthersOnTheFixture.
